(** * Blogicum: visibility and ownership rules of the blog views

    A shallow embedding of [blogicum/blog/views.py] and
    [blogicum/blog/forms.py].  The database is a record of tables, each a
    finite map from primary key to row; a queryset is the list of
    (pk, row) pairs a query returns; a view is a function of the database,
    the request and the URL arguments. *)

From stdpp Require Import gmap strings list fin_maps sorting.
From Stdlib Require Import ZArith Lia.

Local Open Scope Z_scope.

(** ** Data model *)

(** Modelled from the spec: [blog/models.py] is not among the sources; the
    fields below are the ones section 3 of the specification lists, with the
    two fields [core/models.py] gives every blog model ([is_published],
    [created_at]).  Timestamps are integers, foreign keys are the primary
    key of the referenced row, and the two optional references are
    [option]s. *)

Module User.
Record t : Type := {
  username : string;
  first_name : string;
  last_name : string;
  email : string;
}.
End User.

Module Category.
Record t : Type := {
  title : string;
  description : string;
  slug : string;
  is_published : bool;
  created_at : Z;
}.
End Category.

Module Location.
Record t : Type := {
  name : string;
  is_published : bool;
  created_at : Z;
}.
End Location.

Module Post.
Record t : Type := {
  title : string;
  text : string;
  pub_date : Z;
  author : Z;
  location : option Z;
  category : option Z;
  is_published : bool;
  created_at : Z;
}.
End Post.

Module Comment.
Record t : Type := {
  text : string;
  author : Z;
  post : Z;
  created_at : Z;
}.
End Comment.

Record DB : Type := {
  users : gmap Z User.t;
  categories : gmap Z Category.t;
  locations : gmap Z Location.t;
  posts : gmap Z Post.t;
  comments : gmap Z Comment.t;
}.

(** [Model.objects]: every row of a table, with its primary key. *)
Definition objects {A : Type} (table : gmap Z A) : list (Z * A) :=
  map_to_list table.

(** The UNIQUE constraints of [User.username] and [Category.slug]. *)
Definition unique_usernames (db : DB) : Prop :=
  NoDup ((λ r : Z * User.t, User.username r.2) <$> objects (users db)).

Definition unique_slugs (db : DB) : Prop :=
  NoDup ((λ r : Z * Category.t, Category.slug r.2) <$> objects (categories db)).

(** ** Requests and responses *)

(** [request.user]: the anonymous user, or the row of the logged-in user. *)
Inductive Viewer : Type :=
| AnonymousUser
| Authenticated (pk : Z) (u : User.t).

Definition is_authenticated (v : Viewer) : bool :=
  match v with
  | AnonymousUser => false
  | Authenticated _ _ => true
  end.

(** [str(request.user)]: the username of a logged-in user, and the fixed
    text Django's [AnonymousUser.__str__] returns. *)
Definition str_user (v : Viewer) : string :=
  match v with
  | AnonymousUser => "AnonymousUser"
  | Authenticated _ u => User.username u
  end.

(** The session user is a row of the users table. *)
Definition viewer_in_db (db : DB) (v : Viewer) : Prop :=
  match v with
  | AnonymousUser => True
  | Authenticated pk u => users db !! pk = Some u
  end.

(** What a lookup returns: the object, [Http404] raised by
    [get_object_or_404], or the [MultipleObjectsReturned] error of
    [QuerySet.get]. *)
Inductive result (A : Type) : Type :=
| Ok (a : A)
| Http404
| MultipleObjectsReturned.
Arguments Ok {A} a.
Arguments Http404 {A}.
Arguments MultipleObjectsReturned {A}.

#[global] Instance result_bind : MBind result := λ A B k r,
  match r with
  | Ok a => k a
  | Http404 => Http404
  | MultipleObjectsReturned => MultipleObjectsReturned
  end.

Definition get_object_or_404 {A : Type} (queryset : list A) : result A :=
  match queryset with
  | [] => Http404
  | [obj] => Ok obj
  | _ => MultipleObjectsReturned
  end.

(** ** Query layer *)

(** [category__is_published=True]: the inner join with the category table
    keeps a post only when it has a category and that category is
    published. *)
Definition category__is_published (db : DB) (p : Post.t) : bool :=
  match Post.category p with
  | Some cid =>
      match categories db !! cid with
      | Some c => Category.is_published c
      | None => false
      end
  | None => false
  end.

(** [annotate(comment_count=Count("comments"))]. *)
Definition Count_comments (db : DB) (post_pk : Z) : nat :=
  length (filter (λ r : Z * Comment.t, Comment.post r.2 = post_pk)
                 (objects (comments db))).

Definition annotate_comment_count (db : DB) (qs : list (Z * Post.t))
  : list (Z * Post.t * nat) :=
  (λ r, (r, Count_comments db r.1)) <$> qs.

(** [order_by("-pub_date")]: newest first.  The order among posts of the
    same date is the database's choice; here it is the one the merge sort
    gives. *)
Definition newer_first (a b : Z * Post.t * nat) : Prop :=
  Post.pub_date b.1.2 ≤ Post.pub_date a.1.2.

#[global] Instance newer_first_dec a b : Decision (newer_first a b).
Proof. unfold newer_first. apply _. Defined.

Definition order_by_pub_date_desc (qs : list (Z * Post.t * nat))
  : list (Z * Post.t * nat) :=
  merge_sort newer_first qs.

(** The posts of a listing, without the annotation. *)
Definition listed (qs : list (Z * Post.t * nat)) : list (Z * Post.t) := qs.*1.

(** [author__username]: the inner join with the users table. *)
Definition author__username (db : DB) (p : Post.t) : option string :=
  User.username <$> users db !! Post.author p.

(** ** Read views *)

Inductive Method : Type := GET | POST.

(** A decoded form value. *)
Inductive FieldValue : Type :=
| VText (s : string)
| VTime (t : Z)
| VRef (pk : Z)
| VBool (b : bool).

Record Request : Type := {
  user : Viewer;
  method : Method;
  POST_data : gmap string FieldValue;
}.

(** [PostListView.get_queryset]; the view shows it in pages of
    [paginate_by = 10]. *)
Definition PostListView_get_queryset (db : DB) (now : Z)
  : list (Z * Post.t * nat) :=
  order_by_pub_date_desc
    (annotate_comment_count db
       (filter (λ r : Z * Post.t,
                  Post.pub_date r.2 < now
                  ∧ Post.is_published r.2 = true
                  ∧ category__is_published db r.2 = true)
               (objects (posts db)))).

(** [PostDetailView.get_object] *)
Definition PostDetailView_get_object (db : DB) (request : Request) (pk : Z)
  : result (Z * Post.t) :=
  get_object_or_404
    (filter (λ r : Z * Post.t, r.1 = pk)
       (filter (λ r : Z * Post.t,
                  Post.is_published r.2 = true
                  ∨ author__username db r.2 = Some (str_user (user request)))
               (objects (posts db)))).

(** [ProfileView.get_queryset] *)
Definition ProfileView_get_queryset (db : DB) (request : Request)
    (username : string) : result (list (Z * Post.t * nat)) :=
  author ← get_object_or_404
              (filter (λ r : Z * User.t, User.username r.2 = username)
                      (objects (users db)));
  Ok (order_by_pub_date_desc
        (annotate_comment_count db
           (filter (λ r : Z * Post.t, Post.author r.2 = author.1)
                   (objects (posts db))))).

(** [CategoryListView.get_queryset] *)
Definition CategoryListView_get_queryset (db : DB) (now : Z)
    (category_slug : string) : result (list (Z * Post.t * nat)) :=
  category ← get_object_or_404
                (filter (λ r : Z * Category.t,
                           Category.slug r.2 = category_slug
                           ∧ Category.is_published r.2 = true)
                        (objects (categories db)));
  Ok (order_by_pub_date_desc
        (annotate_comment_count db
           (filter (λ r : Z * Post.t,
                      Post.category r.2 = Some category.1
                      ∧ Post.pub_date r.2 < now
                      ∧ category__is_published db r.2 = true
                      ∧ Post.is_published r.2 = true)
                   (objects (posts db))))).

(** ** Model forms *)

(** Modelled from the spec: the editable fields of the three models, in the
    order of section 3 ([created_at] is set on insertion and is not
    editable), and what each accepts.  A model form reads from the posted
    data the value of each of its fields and of no other key. *)
Definition Post_fields : list string :=
  ["title"; "text"; "pub_date"; "author"; "location"; "category";
   "is_published"].

Definition Comment_fields : list string := ["text"; "author"; "post"].

(** [PostForm.Meta.exclude], [CommentForm.Meta.fields] and
    [ProfileUpdateView.fields]. *)
Definition PostForm_exclude : list string := ["author"].

Definition PostForm_fields : list string :=
  filter (λ f, f ∉ PostForm_exclude) Post_fields.

Definition CommentForm_fields : list string :=
  filter (λ f, f ∈ ["text"]) Comment_fields.

Definition ProfileUpdateView_fields : list string :=
  ["username"; "first_name"; "last_name"; "email"].

Definition Post_with_title (s : string) (p : Post.t) : Post.t :=
  {| Post.title := s; Post.text := Post.text p;
     Post.pub_date := Post.pub_date p; Post.author := Post.author p;
     Post.location := Post.location p; Post.category := Post.category p;
     Post.is_published := Post.is_published p;
     Post.created_at := Post.created_at p |}.

Definition Post_with_text (s : string) (p : Post.t) : Post.t :=
  {| Post.title := Post.title p; Post.text := s;
     Post.pub_date := Post.pub_date p; Post.author := Post.author p;
     Post.location := Post.location p; Post.category := Post.category p;
     Post.is_published := Post.is_published p;
     Post.created_at := Post.created_at p |}.

Definition Post_with_pub_date (t : Z) (p : Post.t) : Post.t :=
  {| Post.title := Post.title p; Post.text := Post.text p;
     Post.pub_date := t; Post.author := Post.author p;
     Post.location := Post.location p; Post.category := Post.category p;
     Post.is_published := Post.is_published p;
     Post.created_at := Post.created_at p |}.

Definition Post_with_author (u : Z) (p : Post.t) : Post.t :=
  {| Post.title := Post.title p; Post.text := Post.text p;
     Post.pub_date := Post.pub_date p; Post.author := u;
     Post.location := Post.location p; Post.category := Post.category p;
     Post.is_published := Post.is_published p;
     Post.created_at := Post.created_at p |}.

Definition Post_with_location (l : option Z) (p : Post.t) : Post.t :=
  {| Post.title := Post.title p; Post.text := Post.text p;
     Post.pub_date := Post.pub_date p; Post.author := Post.author p;
     Post.location := l; Post.category := Post.category p;
     Post.is_published := Post.is_published p;
     Post.created_at := Post.created_at p |}.

Definition Post_with_category (c : option Z) (p : Post.t) : Post.t :=
  {| Post.title := Post.title p; Post.text := Post.text p;
     Post.pub_date := Post.pub_date p; Post.author := Post.author p;
     Post.location := Post.location p; Post.category := c;
     Post.is_published := Post.is_published p;
     Post.created_at := Post.created_at p |}.

Definition Post_with_is_published (b : bool) (p : Post.t) : Post.t :=
  {| Post.title := Post.title p; Post.text := Post.text p;
     Post.pub_date := Post.pub_date p; Post.author := Post.author p;
     Post.location := Post.location p; Post.category := Post.category p;
     Post.is_published := b;
     Post.created_at := Post.created_at p |}.

Definition Post_with_created_at (t : Z) (p : Post.t) : Post.t :=
  {| Post.title := Post.title p; Post.text := Post.text p;
     Post.pub_date := Post.pub_date p; Post.author := Post.author p;
     Post.location := Post.location p; Post.category := Post.category p;
     Post.is_published := Post.is_published p;
     Post.created_at := t |}.

(** Text is a string of bytes, the UTF-8 encoding of the posted text. *)
Definition bytes_of (s : string) : list N :=
  Ascii.N_of_ascii <$> String.list_ascii_of_string s.

Definition text_of (bytes : list N) : string :=
  String.string_of_list_ascii (Ascii.ascii_of_N <$> bytes).

(** The encodings of the characters [str.strip] removes, those
    [str.isspace] accepts: U+0009 to U+000D, U+001C to U+0020; U+0085 and
    U+00A0; U+1680, U+2000 to U+200A, U+2028, U+2029, U+202F, U+205F and
    U+3000. *)
Definition space1 (b : N) : bool :=
  ((9 <=? b) && (b <=? 13) || (28 <=? b) && (b <=? 32))%N.

Definition space2 (b1 b2 : N) : bool :=
  ((b1 =? 194) && ((b2 =? 133) || (b2 =? 160)))%N.

Definition space3 (b1 b2 b3 : N) : bool :=
  ((b1 =? 225) && (b2 =? 154) && (b3 =? 128)
   || (b1 =? 226) && (b2 =? 128)
      && ((128 <=? b3) && (b3 <=? 138) || (b3 =? 168) || (b3 =? 169)
          || (b3 =? 175))
   || (b1 =? 226) && (b2 =? 129) && (b3 =? 159)
   || (b1 =? 227) && (b2 =? 128) && (b3 =? 128))%N.

(** Dropping the white space a list of bytes starts with. *)
Fixpoint lstrip (l : list N) : list N :=
  match l with
  | [] => []
  | b1 :: l1 =>
      if space1 b1 then lstrip l1
      else match l1 with
           | [] => l
           | b2 :: l2 =>
               if space2 b1 b2 then lstrip l2
               else match l2 with
                    | [] => l
                    | b3 :: l3 => if space3 b1 b2 b3 then lstrip l3 else l
                    end
           end
  end.

(** The same from the end, on the reversed list: the bytes of a character
    come last byte first. *)
Fixpoint rstrip_reversed (l : list N) : list N :=
  match l with
  | [] => []
  | b1 :: l1 =>
      if space1 b1 then rstrip_reversed l1
      else match l1 with
           | [] => l
           | b2 :: l2 =>
               if space2 b2 b1 then rstrip_reversed l2
               else match l2 with
                    | [] => l
                    | b3 :: l3 =>
                        if space3 b3 b2 b1 then rstrip_reversed l3 else l
                    end
           end
  end.

(** [str.strip()] *)
Definition strip (s : string) : string :=
  text_of (reverse (rstrip_reversed (reverse (lstrip (bytes_of s))))).

(** What [ProhibitNullCharactersValidator] refuses. *)
Definition has_null (s : string) : bool :=
  bool_decide (0%N ∈ bytes_of s).

(** A required text field, the [CharField] of a form: the posted text is
    stripped; an empty text and a text with a null character are
    refused.  The maximal length of a title is in [blog/models.py] and is
    not modelled. *)
Definition clean_text (value : option FieldValue) : option string :=
  match value with
  | Some (VText s) =>
      if has_null s then None
      else if decide (strip s = "") then None
      else Some (strip s)
  | _ => None
  end.

(** An optional text field: absent means empty. *)
Definition clean_blank_text (value : option FieldValue) : option string :=
  match value with
  | Some (VText s) => if has_null s then None else Some (strip s)
  | None => Some ""
  | _ => None
  end.

(** A required reference: the row must exist. *)
Definition clean_ref {A : Type} (table : gmap Z A) (value : option FieldValue)
  : option Z :=
  match value with
  | Some (VRef k) => if decide (is_Some (table !! k)) then Some k else None
  | _ => None
  end.

(** An optional reference. *)
Definition clean_blank_ref {A : Type} (table : gmap Z A)
    (value : option FieldValue) : option (option Z) :=
  match value with
  | None => Some None
  | _ => Some <$> clean_ref table value
  end.

(** Cleaning the posted value of one field and assigning it to the
    instance; [None] is a validation error. *)
Definition Post_setattr (db : DB) (field : string) (value : option FieldValue)
    (p : Post.t) : option Post.t :=
  if decide (field = "title") then
    s ← clean_text value; Some (Post_with_title s p)
  else if decide (field = "text") then
    s ← clean_text value; Some (Post_with_text s p)
  else if decide (field = "pub_date") then
    match value with
    | Some (VTime t) => Some (Post_with_pub_date t p)
    | _ => None
    end
  else if decide (field = "author") then
    u ← clean_ref (users db) value; Some (Post_with_author u p)
  else if decide (field = "location") then
    l ← clean_blank_ref (locations db) value; Some (Post_with_location l p)
  else if decide (field = "category") then
    c ← clean_blank_ref (categories db) value; Some (Post_with_category c p)
  else if decide (field = "is_published") then
    match value with
    | Some (VBool b) => Some (Post_with_is_published b p)
    | None => Some (Post_with_is_published false p)
    | _ => None
    end
  else Some p.

Definition Comment_setattr (db : DB) (field : string)
    (value : option FieldValue) (c : Comment.t) : option Comment.t :=
  if decide (field = "text") then
    s ← clean_text value;
    Some {| Comment.text := s; Comment.author := Comment.author c;
            Comment.post := Comment.post c;
            Comment.created_at := Comment.created_at c |}
  else if decide (field = "author") then
    u ← clean_ref (users db) value;
    Some {| Comment.text := Comment.text c; Comment.author := u;
            Comment.post := Comment.post c;
            Comment.created_at := Comment.created_at c |}
  else if decide (field = "post") then
    k ← clean_ref (posts db) value;
    Some {| Comment.text := Comment.text c; Comment.author := Comment.author c;
            Comment.post := k;
            Comment.created_at := Comment.created_at c |}
  else Some c.

(** The fields of a user.  What [django.contrib.auth] further asks of a
    username (its characters), of an e-mail address (its form) and of the
    lengths is not modelled: the form of the program accepts fewer values
    than this one. *)
Definition User_setattr (field : string) (value : option FieldValue)
    (u : User.t) : option User.t :=
  if decide (field = "username") then
    s ← clean_text value;
    Some {| User.username := s; User.first_name := User.first_name u;
            User.last_name := User.last_name u; User.email := User.email u |}
  else if decide (field = "first_name") then
    s ← clean_blank_text value;
    Some {| User.username := User.username u; User.first_name := s;
            User.last_name := User.last_name u; User.email := User.email u |}
  else if decide (field = "last_name") then
    s ← clean_blank_text value;
    Some {| User.username := User.username u;
            User.first_name := User.first_name u;
            User.last_name := s; User.email := User.email u |}
  else if decide (field = "email") then
    s ← clean_blank_text value;
    Some {| User.username := User.username u;
            User.first_name := User.first_name u;
            User.last_name := User.last_name u; User.email := s |}
  else Some u.

(** [form.is_valid()] of a bound model form: the fields of the form are
    cleaned from the posted data and assigned to [form.instance], one after
    the other.  [None]: the form is invalid. *)
Definition construct_instance {A : Type}
    (setattr : string → option FieldValue → A → option A)
    (fields : list string) (data : gmap string FieldValue) (instance : A)
  : option A :=
  foldl (λ acc field, inst ← acc; setattr field (data !! field) inst)
        (Some instance) fields.

(** ** Responses and persistence *)

(** The named routes the views redirect to ([reverse] of a route name and
    its arguments), the login page of [LoginRequiredMixin], and the address
    [Post.get_absolute_url] gives a post. *)
Inductive Url : Type :=
| blog_post_detail (pk : Z)
| blog_profile (username : string)
| blog_post_list
| LOGIN_URL
| Post_get_absolute_url (pk : Z).

Inductive Response : Type :=
| HttpResponseRedirect (url : Url)
| TemplateResponse
| HttpResponseNotFound
| HttpResponseServerError.

(** An exception of a lookup ends the request; the database is as it was. *)
Definition with_object {A : Type} (db : DB) (r : result A)
    (k : A → Response * DB) : Response * DB :=
  match r with
  | Ok obj => k obj
  | Http404 => (HttpResponseNotFound, db)
  | MultipleObjectsReturned => (HttpResponseServerError, db)
  end.

(** The primary key an insertion gets: one that no row has.  (The
    sequence of the database, moreover, never gives the key of a deleted
    row again.) *)
Definition next_pk {A : Type} (table : gmap Z A) : Z :=
  1 + foldr Z.max 0 (objects table).*1.

Definition save_user (pk : Z) (u : User.t) (db : DB) : DB :=
  {| users := <[pk := u]> (users db); categories := categories db;
     locations := locations db; posts := posts db;
     comments := comments db |}.

Definition save_post (pk : Z) (p : Post.t) (db : DB) : DB :=
  {| users := users db; categories := categories db;
     locations := locations db; posts := <[pk := p]> (posts db);
     comments := comments db |}.

Definition save_comment (pk : Z) (c : Comment.t) (db : DB) : DB :=
  {| users := users db; categories := categories db;
     locations := locations db; posts := posts db;
     comments := <[pk := c]> (comments db) |}.

(** Deleting a post deletes its comments with it. *)
Definition delete_post (pk : Z) (db : DB) : DB :=
  {| users := users db; categories := categories db;
     locations := locations db; posts := delete pk (posts db);
     comments := filter (λ r : Z * Comment.t, Comment.post r.2 ≠ pk)
                        (comments db) |}.

Definition delete_comment (pk : Z) (db : DB) : DB :=
  {| users := users db; categories := categories db;
     locations := locations db; posts := posts db;
     comments := delete pk (comments db) |}.

(** ** Mixins *)

(** [LoginRequiredMixin.dispatch] *)
Definition LoginRequiredMixin_dispatch (db : DB) (request : Request)
    (super : Response * DB) : Response * DB :=
  if is_authenticated (user request) then super
  else (HttpResponseRedirect LOGIN_URL, db).

(** The models [DispatchMixin] is used with have an [author]. *)
Class Authored (A : Type) : Type := author_id : A → Z.

#[global] Instance Post_Authored : Authored Post.t := Post.author.
#[global] Instance Comment_Authored : Authored Comment.t := Comment.author.

(** [author != request.user]: two users are equal when their primary keys
    are; the anonymous user equals no user. *)
Definition author_ne_user (author_pk : Z) (v : Viewer) : bool :=
  match v with
  | AnonymousUser => true
  | Authenticated pk _ => bool_decide (author_pk ≠ pk)
  end.

(** [DispatchMixin.dispatch]; [self.get_object().author] fetches the row
    the foreign key names. *)
Definition DispatchMixin_dispatch {A : Type} `{Authored A} (db : DB)
    (request : Request) (get_object : result (Z * A))
    (super : Response * DB) : Response * DB :=
  with_object db get_object (λ obj,
    match users db !! author_id obj.2 with
    | Some _ =>
        if author_ne_user (author_id obj.2) (user request)
        then (HttpResponseRedirect (blog_post_detail obj.1), db)
        else super
    | None => (HttpResponseServerError, db)
    end).

(** [CommentMixin.get_object] *)
Definition CommentMixin_get_object (db : DB) (post_pk comment_pk : Z)
  : result (Z * Comment.t) :=
  get_object_or_404
    (filter (λ r : Z * Comment.t, r.1 = comment_pk ∧ Comment.post r.2 = post_pk)
            (objects (comments db))).

(** The keys of the addresses are integers of 64 bits, the range of the
    key columns: beyond it the database driver refuses the key with an
    [OverflowError], which the lookups below do not model.  Every stored
    key is in the range. *)
Definition key_in_range (k : Z) : Prop := - 2 ^ 63 ≤ k < 2 ^ 63.

#[global] Instance key_in_range_dec k : Decision (key_in_range k).
Proof. unfold key_in_range. apply _. Defined.

(** [SingleObjectMixin.get_object] of the post views: lookup by [pk]. *)
Definition Post_get_object (db : DB) (pk : Z) : result (Z * Post.t) :=
  get_object_or_404 (filter (λ r : Z * Post.t, r.1 = pk) (objects (posts db))).

(** ** Post views *)

(** [Post()], the instance of an unbound create form; its author is not
    set yet. *)
Definition new_Post : Post.t :=
  {| Post.title := ""; Post.text := ""; Post.pub_date := 0; Post.author := 0;
     Post.location := None; Post.category := None;
     Post.is_published := true; Post.created_at := 0 |}.

(** [PostCreateView.form_valid]; the insertion stamps [created_at]. *)
Definition PostCreateView_form_valid (db : DB) (now : Z) (request : Request)
    (instance : Post.t) : Response * DB :=
  match user request with
  | Authenticated upk u =>
      (HttpResponseRedirect (blog_profile (User.username u)),
       save_post (next_pk (posts db))
                 (Post_with_created_at now (Post_with_author upk instance)) db)
  | AnonymousUser => (HttpResponseServerError, db)
  end.

Definition PostCreateView_post (db : DB) (now : Z) (request : Request)
  : Response * DB :=
  match construct_instance (Post_setattr db) PostForm_fields
                           (POST_data request) new_Post with
  | Some instance => PostCreateView_form_valid db now request instance
  | None => (TemplateResponse, db)
  end.

Definition PostCreateView (db : DB) (now : Z) (request : Request)
  : Response * DB :=
  LoginRequiredMixin_dispatch db request
    match method request with
    | GET => (TemplateResponse, db)
    | POST => PostCreateView_post db now request
    end.

(** [PostUpdateView.form_valid] *)
Definition PostUpdateView_form_valid (db : DB) (request : Request) (pk : Z)
    (instance : Post.t) : Response * DB :=
  match user request with
  | Authenticated upk _ =>
      (HttpResponseRedirect (Post_get_absolute_url pk),
       save_post pk (Post_with_author upk instance) db)
  | AnonymousUser => (HttpResponseServerError, db)
  end.

Definition PostUpdateView_post (db : DB) (request : Request) (pk : Z)
  : Response * DB :=
  with_object db (Post_get_object db pk) (λ obj,
    match construct_instance (Post_setattr db) PostForm_fields
                             (POST_data request) obj.2 with
    | Some instance => PostUpdateView_form_valid db request obj.1 instance
    | None => (TemplateResponse, db)
    end).

(** [PostUpdateView]: [LoginRequiredMixin], then [DispatchMixin], then
    [UpdateView]. *)
Definition PostUpdateView (db : DB) (request : Request) (pk : Z)
  : Response * DB :=
  LoginRequiredMixin_dispatch db request
    (DispatchMixin_dispatch db request (Post_get_object db pk)
       match method request with
       | GET => with_object db (Post_get_object db pk) (λ _, (TemplateResponse, db))
       | POST => PostUpdateView_post db request pk
       end).

(** [PostDeleteView]: [LoginRequiredMixin], then [DispatchMixin], then
    [DeleteView], whose POST deletes the object and redirects to
    [success_url]. *)
Definition PostDeleteView (db : DB) (request : Request) (pk : Z)
  : Response * DB :=
  LoginRequiredMixin_dispatch db request
    (DispatchMixin_dispatch db request (Post_get_object db pk)
       match method request with
       | GET => with_object db (Post_get_object db pk) (λ _, (TemplateResponse, db))
       | POST => with_object db (Post_get_object db pk) (λ obj,
                   (HttpResponseRedirect blog_post_list, delete_post obj.1 db))
       end).

(** ** Comment views *)

Definition new_Comment : Comment.t :=
  {| Comment.text := ""; Comment.author := 0; Comment.post := 0;
     Comment.created_at := 0 |}.

(** [CommentCreateView] *)
Definition CommentCreateView_form_valid (db : DB) (now : Z)
    (request : Request) (pk : Z) (instance : Comment.t) : Response * DB :=
  match user request with
  | Authenticated upk _ =>
      with_object db (Post_get_object db pk) (λ post,
        (HttpResponseRedirect (blog_post_detail pk),
         save_comment (next_pk (comments db))
           {| Comment.text := Comment.text instance; Comment.author := upk;
              Comment.post := post.1; Comment.created_at := now |} db))
  | AnonymousUser => (HttpResponseServerError, db)
  end.

Definition CommentCreateView (db : DB) (now : Z) (request : Request) (pk : Z)
  : Response * DB :=
  LoginRequiredMixin_dispatch db request
    match method request with
    | GET => (TemplateResponse, db)
    | POST =>
        match construct_instance (Comment_setattr db) CommentForm_fields
                                 (POST_data request) new_Comment with
        | Some instance => CommentCreateView_form_valid db now request pk instance
        | None => (TemplateResponse, db)
        end
    end.

(** [CommentUpdateView]: [CommentMixin], then [DispatchMixin], then
    [LoginRequiredMixin], then [UpdateView]. *)
Definition CommentUpdateView (db : DB) (request : Request)
    (post_pk comment_pk : Z) : Response * DB :=
  DispatchMixin_dispatch db request (CommentMixin_get_object db post_pk comment_pk)
    (LoginRequiredMixin_dispatch db request
       (with_object db (CommentMixin_get_object db post_pk comment_pk) (λ obj,
          match method request with
          | GET => (TemplateResponse, db)
          | POST =>
              match construct_instance (Comment_setattr db) CommentForm_fields
                                       (POST_data request) obj.2 with
              | Some instance =>
                  (HttpResponseRedirect (blog_post_detail post_pk),
                   save_comment obj.1 instance db)
              | None => (TemplateResponse, db)
              end
          end))).

(** [CommentDeleteView] *)
Definition CommentDeleteView (db : DB) (request : Request)
    (post_pk comment_pk : Z) : Response * DB :=
  DispatchMixin_dispatch db request (CommentMixin_get_object db post_pk comment_pk)
    (LoginRequiredMixin_dispatch db request
       (with_object db (CommentMixin_get_object db post_pk comment_pk) (λ obj,
          match method request with
          | GET => (TemplateResponse, db)
          | POST =>
              (HttpResponseRedirect (blog_post_detail post_pk),
               delete_comment obj.1 db)
          end))).

(** ** Profile *)

(** [ProfileUpdateView.get_object] *)
Definition ProfileUpdateView_get_object (db : DB) (username : string)
  : result (Z * User.t) :=
  get_object_or_404
    (filter (λ r : Z * User.t, User.username r.2 = username)
            (objects (users db))).

(** The uniqueness check of a model form: no other row has the username. *)
Definition validate_unique (db : DB) (pk : Z) (u : User.t) : bool :=
  bool_decide
    (filter (λ r : Z * User.t, User.username r.2 = User.username u ∧ r.1 ≠ pk)
            (objects (users db)) = []).

(** [ProfileUpdateView.form_valid]: the instance the form has filled in
    is saved under the key of the object that was looked up; the
    assignment to [self.request.user] changes nothing that is stored. *)
Definition ProfileUpdateView_form_valid (db : DB) (pk : Z) (user : User.t)
  : Response * DB :=
  (HttpResponseRedirect (blog_profile (User.username user)),
   save_user pk user db).

(** [ProfileUpdateView]: [LoginRequiredMixin], then [UpdateView]. *)
Definition ProfileUpdateView (db : DB) (request : Request) (username : string)
  : Response * DB :=
  LoginRequiredMixin_dispatch db request
    (with_object db (ProfileUpdateView_get_object db username) (λ obj,
       match method request with
       | GET => (TemplateResponse, db)
       | POST =>
           match construct_instance User_setattr ProfileUpdateView_fields
                                    (POST_data request) obj.2 with
           | Some instance =>
               if validate_unique db obj.1 instance
               then ProfileUpdateView_form_valid db obj.1 instance
               else (TemplateResponse, db)
           | None => (TemplateResponse, db)
           end
       end)).

(** ** Pages and page contexts *)

(** The [page] parameter of a list request: absent (or empty), a number,
    the word [last], or any other text. *)
Inductive PageParam : Type :=
| PageAbsent
| PageNumber (n : Z)
| PageLast
| PageInvalid.

(** [PostMixin.paginate_by] *)
Definition paginate_by : nat := 10.

(** [Paginator.num_pages]: an empty listing has one, empty, page. *)
Definition num_pages (count : nat) : nat :=
  ((Nat.max 1 count + paginate_by - 1) / paginate_by)%nat.

(** [ListView.paginate_queryset]: the page asked for, [Http404] when the
    parameter is not a page number of the listing. *)
Definition paginate_queryset {A : Type} (qs : list A) (page : PageParam)
  : result (list A) :=
  page_number ← match page with
                 | PageAbsent => Ok 1
                 | PageNumber n => Ok n
                 | PageLast => Ok (Z.of_nat (num_pages (length qs)))
                 | PageInvalid => Http404
                 end;
  if decide (page_number < 1) then Http404
  else if decide (Z.of_nat (num_pages (length qs)) < page_number) then Http404
  else
    let bottom := ((Z.to_nat page_number - 1) * paginate_by)%nat in
    let top := Nat.min (bottom + paginate_by) (length qs) in
    Ok (take (top - bottom) (drop bottom qs)).

(** [PostListView]: a page of the home listing. *)
Definition PostListView (db : DB) (now : Z) (page : PageParam)
  : result (list (Z * Post.t * nat)) :=
  paginate_queryset (PostListView_get_queryset db now) page.

(** [CategoryListView] with [get_context_data]: the category and a page of
    its listing. *)
Definition CategoryListView (db : DB) (now : Z) (category_slug : string)
    (page : PageParam)
  : result ((Z * Category.t) * list (Z * Post.t * nat)) :=
  qs ← CategoryListView_get_queryset db now category_slug;
  page_obj ← paginate_queryset qs page;
  category ← get_object_or_404
                (filter (λ r : Z * Category.t,
                           Category.slug r.2 = category_slug
                           ∧ Category.is_published r.2 = true)
                        (objects (categories db)));
  Ok (category, page_obj).





(** ** A sample database *)

Definition alice : User.t :=
  {| User.username := "alice"; User.first_name := "Alice";
     User.last_name := "A"; User.email := "alice@example.org" |}.

Definition bob : User.t :=
  {| User.username := "bob"; User.first_name := "Bob";
     User.last_name := "B"; User.email := "bob@example.org" |}.

(** A registered user whose username is the text [str] gives the
    anonymous user. *)
Definition carol : User.t :=
  {| User.username := "AnonymousUser"; User.first_name := "Carol";
     User.last_name := "C"; User.email := "carol@example.org" |}.

Definition news : Category.t :=
  {| Category.title := "News"; Category.description := "";
     Category.slug := "news"; Category.is_published := true;
     Category.created_at := 1 |}.

Definition hidden : Category.t :=
  {| Category.title := "Hidden"; Category.description := "";
     Category.slug := "hidden"; Category.is_published := false;
     Category.created_at := 2 |}.

Definition mk_post (title : string) (pub_date author : Z)
    (category : option Z) (is_published : bool) : Post.t :=
  {| Post.title := title; Post.text := "text"; Post.pub_date := pub_date;
     Post.author := author; Post.location := None; Post.category := category;
     Post.is_published := is_published; Post.created_at := 3 |}.

Definition P1 : Post.t := mk_post "P1" 50 1 (Some 1) true.
Definition P2 : Post.t := mk_post "P2" 60 1 (Some 1) false.
Definition P3 : Post.t := mk_post "P3" 70 2 None true.
Definition P4 : Post.t := mk_post "P4" 100 2 (Some 1) true.
Definition P5 : Post.t := mk_post "P5" 10 3 (Some 1) false.
Definition P6 : Post.t := mk_post "P6" 20 2 (Some 2) true.
Definition P7 : Post.t := mk_post "P7" 200 1 (Some 1) true.

Definition K1 : Comment.t :=
  {| Comment.text := "first"; Comment.author := 2; Comment.post := 1;
     Comment.created_at := 55 |}.

Definition K2 : Comment.t :=
  {| Comment.text := "second"; Comment.author := 1; Comment.post := 1;
     Comment.created_at := 56 |}.

Definition blog_db : DB :=
  {| users := list_to_map [(1, alice); (2, bob); (3, carol)];
     categories := list_to_map [(1, news); (2, hidden)];
     locations := ∅;
     posts := list_to_map [(1, P1); (2, P2); (3, P3); (4, P4); (5, P5);
                           (6, P6); (7, P7)];
     comments := list_to_map [(1, K1); (2, K2)] |}.

(** The current time of the examples. *)
Definition today : Z := 100.

Definition request_of (v : Viewer) (m : Method)
    (data : list (string * FieldValue)) : Request :=
  {| user := v; method := m; POST_data := list_to_map data |}.

(** * Properties *)

(** ** Facts about queries *)

#[global] Instance newer_first_total : Total newer_first.
Proof. intros a b. unfold newer_first. lia. Qed.

#[global] Instance newer_first_trans : Transitive newer_first.
Proof. intros a b c. unfold newer_first. lia. Qed.

Section queries.
Context {A : Type}.

Lemma filter_all_out (P : A → Prop) `{∀ x, Decision (P x)} (l : list A) :
  (∀ y, y ∈ l → ¬ P y) → filter P l = [].
Proof.
  induction l as [|a l IH]; intros Hout; [done|].
  rewrite filter_cons_False; [|apply Hout; left].
  apply IH. intros y Hy. apply Hout. by right.
Qed.

Lemma filter_only_one (P : A → Prop) `{∀ x, Decision (P x)} (l : list A) x :
  NoDup l → x ∈ l → P x → (∀ y, y ∈ l → P y → y = x) → filter P l = [x].
Proof.
  induction l as [|a l IH]; intros Hnd Hin HP Huniq.
  - by apply elem_of_nil in Hin.
  - apply NoDup_cons in Hnd as [Ha Hnd].
    apply elem_of_cons in Hin as [->|Hin].
    + rewrite filter_cons_True by done. f_equal.
      apply filter_all_out. intros y Hy HPy.
      assert (y = a) as -> by (apply Huniq; [by right|done]). done.
    + rewrite filter_cons_False.
      * apply IH; try done. intros y Hy. apply Huniq. by right.
      * intros HPa. assert (a = x) as -> by (apply Huniq; [left|done]). done.
Qed.

(** Two rows with the same value of a unique key are the same row. *)
Lemma unique_key_eq {K : Type} (key : A → K) (l : list A) x y :
  NoDup (key <$> l) → x ∈ l → y ∈ l → key y = key x → y = x.
Proof.
  induction l as [|a l IH].
  - intros _ Hin. by apply elem_of_nil in Hin.
  - rewrite fmap_cons, NoDup_cons, !elem_of_cons.
    intros [Ha Hnd] [->|Hx] [->|Hy] Hk; try done.
    + destruct Ha. rewrite <- Hk. by apply list_elem_of_fmap_2.
    + destruct Ha. rewrite Hk. by apply list_elem_of_fmap_2.
    + by apply IH.
Qed.

(** A key that is unique among the rows selects at most one of them. *)
Lemma filter_unique_key {K : Type} `{EqDecision K} (key : A → K)
    (l : list A) x :
  NoDup (key <$> l) → x ∈ l → filter (λ r, key r = key x) l = [x].
Proof.
  intros Hnd Hin. apply filter_only_one; try done.
  - by eapply NoDup_fmap_1.
  - intros y Hy Hk. by eapply unique_key_eq.
Qed.

End queries.

(** The lookup by primary key. *)
Lemma get_by_pk {A : Type} (table : gmap Z A) (pk : Z) :
  get_object_or_404 (filter (λ r : Z * A, r.1 = pk) (objects table))
  = match table !! pk with Some x => Ok (pk, x) | None => Http404 end.
Proof.
  unfold objects. destruct (table !! pk) as [x|] eqn:Hpk.
  - rewrite (filter_unique_key fst _ (pk, x)); [done| |].
    + apply NoDup_fst_map_to_list.
    + by apply elem_of_map_to_list.
  - rewrite filter_all_out; [done|].
    intros [k y] Hin%elem_of_map_to_list ?. simpl in *. congruence.
Qed.


Lemma Post_get_object_eq (db : DB) (pk : Z) :
  Post_get_object db pk
  = match posts db !! pk with Some p => Ok (pk, p) | None => Http404 end.
Proof. apply get_by_pk. Qed.

(** Annotating and ordering a queryset neither adds nor drops a post. *)
Lemma elem_of_listed_ordered (db : DB) (qs : list (Z * Post.t)) r :
  r ∈ listed (order_by_pub_date_desc (annotate_comment_count db qs)) ↔ r ∈ qs.
Proof.
  unfold listed, order_by_pub_date_desc, annotate_comment_count.
  rewrite merge_sort_Permutation, <- list_fmap_compose.
  rewrite list_elem_of_fmap. split.
  - by intros (x & -> & Hx).
  - intros Hr. by exists r.
Qed.

Lemma NoDup_listed_ordered (db : DB) (qs : list (Z * Post.t)) :
  NoDup qs →
  NoDup (listed (order_by_pub_date_desc (annotate_comment_count db qs))).
Proof.
  intros Hnd. unfold listed, order_by_pub_date_desc, annotate_comment_count.
  rewrite merge_sort_Permutation, <- list_fmap_compose.
  by rewrite (list_fmap_ext _ id qs), list_fmap_id.
Qed.

Lemma ordered_newer_first (qs : list (Z * Post.t * nat)) :
  StronglySorted newer_first (order_by_pub_date_desc qs).
Proof. apply StronglySorted_merge_sort; apply _. Qed.

(** The count attached to a listed post is the number of its comments. *)
Lemma comment_count_listed (db : DB) (qs : list (Z * Post.t)) r n :
  (r, n) ∈ order_by_pub_date_desc (annotate_comment_count db qs) →
  n = Count_comments db r.1.
Proof.
  unfold order_by_pub_date_desc, annotate_comment_count.
  rewrite merge_sort_Permutation, list_elem_of_fmap.
  intros (x & [= -> ->] & _). done.
Qed.

Lemma category__is_published_true (db : DB) (p : Post.t) :
  category__is_published db p = true ↔
  ∃ cid c, Post.category p = Some cid ∧ categories db !! cid = Some c
           ∧ Category.is_published c = true.
Proof.
  unfold category__is_published. split.
  - destruct (Post.category p) as [cid|]; [|done].
    destruct (categories db !! cid) as [c|] eqn:Hc; [|done].
    intros Hpub. by exists cid, c.
  - intros (cid & c & -> & -> & Hpub). done.
Qed.

(** ** Listings *)

(** Closes [x ∉ l] for a listing [l] that has been computed. *)
Ltac not_listed :=
  let H := fresh "Hin" in
  intros H;
  repeat (apply elem_of_cons in H as [H|H]; [discriminate H|]);
  by apply elem_of_nil in H.

Lemma PostListView_sample :
  listed (PostListView_get_queryset blog_db today) = [(1, P1)].
Proof. reflexivity. Qed.

(** C1, as the code has it: a post is in the home listing iff it is
    published, its publication date is strictly before the current time,
    and it has a category that is published; the listing is in descending
    order of publication date. *)
Theorem PostListView_listing (db : DB) (now : Z) :
  (∀ pk p,
     (pk, p) ∈ listed (PostListView_get_queryset db now) ↔
     posts db !! pk = Some p
     ∧ Post.is_published p = true
     ∧ Post.pub_date p < now
     ∧ ∃ cid c, Post.category p = Some cid ∧ categories db !! cid = Some c
                ∧ Category.is_published c = true)
  ∧ StronglySorted newer_first (PostListView_get_queryset db now).
Proof.
  split; [|apply ordered_newer_first].
  intros pk p. unfold PostListView_get_queryset.
  rewrite elem_of_listed_ordered, list_elem_of_filter. simpl.
  unfold objects. rewrite elem_of_map_to_list, category__is_published_true.
  tauto.
Qed.

(** C1 fails as stated: in the sample database post 3 is published, dated
    before the current time and has no category, and post 4 is published,
    in a published category and dated exactly at the current time; each
    meets the stated condition and neither is in the home listing. *)
Lemma PostListView_listing_counterexample :
  (posts blog_db !! 3 = Some P3
   ∧ Post.is_published P3 = true
   ∧ Post.pub_date P3 ≤ today
   ∧ Post.category P3 = None
   ∧ (3, P3) ∉ listed (PostListView_get_queryset blog_db today))
  ∧ (posts blog_db !! 4 = Some P4
     ∧ Post.is_published P4 = true
     ∧ Post.pub_date P4 ≤ today
     ∧ (∃ cid c, Post.category P4 = Some cid
                 ∧ categories blog_db !! cid = Some c
                 ∧ Category.is_published c = true)
     ∧ (4, P4) ∉ listed (PostListView_get_queryset blog_db today)).
Proof.
  rewrite PostListView_sample. split.
  - repeat split; [vm_compute; discriminate|not_listed].
  - repeat split; [vm_compute; discriminate|by exists 1, news|not_listed].
Qed.

(** C6: whoever asks, the profile listing of a user is exactly the posts
    whose author is that user, whatever their publication flags and dates,
    each once, in descending order of publication date. *)
Theorem ProfileView_listing (db : DB) (request : Request) (upk : Z)
    (u : User.t) :
  unique_usernames db →
  users db !! upk = Some u →
  ∃ qs, ProfileView_get_queryset db request (User.username u) = Ok qs
        ∧ (∀ pk p, (pk, p) ∈ listed qs ↔
                   posts db !! pk = Some p ∧ Post.author p = upk)
        ∧ NoDup (listed qs)
        ∧ StronglySorted newer_first qs.
Proof.
  intros Huniq Hu. unfold ProfileView_get_queryset.
  rewrite (filter_unique_key (λ r : Z * User.t, User.username r.2) _ (upk, u));
    [|done|by apply elem_of_map_to_list].
  simpl. eexists. split; [done|]. split; [|split].
  - intros pk p. rewrite elem_of_listed_ordered, list_elem_of_filter. simpl.
    unfold objects. rewrite elem_of_map_to_list. tauto.
  - apply NoDup_listed_ordered, NoDup_filter, NoDup_map_to_list.
  - apply ordered_newer_first.
Qed.

Lemma ProfileView_listing_witness :
  ∃ qs, ProfileView_get_queryset blog_db (request_of AnonymousUser GET [])
          "bob" = Ok qs
        ∧ (∀ pk p, (pk, p) ∈ listed qs ↔
                   posts blog_db !! pk = Some p ∧ Post.author p = 2)
        ∧ NoDup (listed qs)
        ∧ StronglySorted newer_first qs.
Proof.
  apply (ProfileView_listing blog_db (request_of AnonymousUser GET []) 2 bob).
  - apply (bool_decide_unpack _). vm_compute. exact I.
  - reflexivity.
Defined.

(** C7, as the code has it: the listing of a published category is exactly
    its published posts dated strictly before the current time, each once,
    newest first; the listing of an unpublished category is not found. *)
Theorem CategoryListView_listing (db : DB) (now : Z) (cid : Z)
    (c : Category.t) :
  unique_slugs db →
  categories db !! cid = Some c →
  if Category.is_published c then
    ∃ qs, CategoryListView_get_queryset db now (Category.slug c) = Ok qs
          ∧ (∀ pk p, (pk, p) ∈ listed qs ↔
                     posts db !! pk = Some p
                     ∧ Post.category p = Some cid
                     ∧ Post.is_published p = true
                     ∧ Post.pub_date p < now)
          ∧ NoDup (listed qs)
          ∧ StronglySorted newer_first qs
  else CategoryListView_get_queryset db now (Category.slug c) = Http404.
Proof.
  intros Huniq Hc. unfold CategoryListView_get_queryset.
  assert ((cid, c) ∈ objects (categories db)) as Hin
    by by apply elem_of_map_to_list.
  assert (∀ y : Z * Category.t, y ∈ objects (categories db) →
            Category.slug y.2 = Category.slug c → y = (cid, c)) as Hsame.
  { intros y Hy Hslug.
    by apply (unique_key_eq (λ r : Z * Category.t, Category.slug r.2)
                (objects (categories db))). }
  destruct (Category.is_published c) eqn:Hpub.
  - rewrite (filter_only_one _ _ (cid, c)); try done.
    + simpl. eexists. split; [done|]. split; [|split].
      * intros pk p. rewrite elem_of_listed_ordered, list_elem_of_filter.
        simpl. unfold objects. rewrite elem_of_map_to_list.
        rewrite category__is_published_true. split; [tauto|].
        intros (Hp & Hcat & Hpp & Hlt). repeat split; try done.
        by exists cid, c.
      * apply NoDup_listed_ordered, NoDup_filter, NoDup_map_to_list.
      * apply ordered_newer_first.
    + apply NoDup_map_to_list.
    + intros y Hy [Hslug _]. by apply Hsame.
  - rewrite filter_all_out; [done|].
    intros y Hy [Hslug Hp]. rewrite (Hsame y Hy Hslug) in Hp. simpl in Hp.
    congruence.
Qed.

Lemma CategoryListView_listing_witness :
  ∃ qs, CategoryListView_get_queryset blog_db today "news" = Ok qs
        ∧ (∀ pk p, (pk, p) ∈ listed qs ↔
                   posts blog_db !! pk = Some p
                   ∧ Post.category p = Some 1
                   ∧ Post.is_published p = true
                   ∧ Post.pub_date p < today)
        ∧ NoDup (listed qs)
        ∧ StronglySorted newer_first qs.
Proof.
  apply (CategoryListView_listing blog_db today 1 news).
  - apply (bool_decide_unpack _). vm_compute. exact I.
  - reflexivity.
Defined.

(** The scenario of C7: the listing of the published category "news",
    which holds the published post P1 and the unpublished post P2, is P1
    alone (the other posts of the category are dated at the current time
    or later, or unpublished); the unpublished category is not found. *)
Example CategoryListView_scenario :
  (∃ qs, CategoryListView_get_queryset blog_db today "news" = Ok qs
         ∧ listed qs = [(1, P1)])
  ∧ CategoryListView_get_queryset blog_db today "hidden" = Http404.
Proof. split; [eexists; split|]; reflexivity. Qed.

(** C7 fails as stated: post 4 of the sample database is a published post
    of the published category "news" dated exactly at the current time,
    and the listing of the category leaves it out. *)
Lemma CategoryListView_listing_counterexample :
  categories blog_db !! 1 = Some news
  ∧ Category.is_published news = true
  ∧ posts blog_db !! 4 = Some P4
  ∧ Post.category P4 = Some 1
  ∧ Post.is_published P4 = true
  ∧ Post.pub_date P4 ≤ today
  ∧ ∃ qs, CategoryListView_get_queryset blog_db today (Category.slug news)
            = Ok qs
          ∧ (4, P4) ∉ listed qs.
Proof.
  repeat split; [vm_compute; discriminate|].
  exists [(1, P1, 2%nat)]. split; [reflexivity|].
  unfold listed. simpl. not_listed.
Qed.

(** ** Facts about model forms *)

Section forms.
Context {A : Type} (setattr : string → option FieldValue → A → option A).

Implicit Types (data : gmap string FieldValue) (fields : list string).

Lemma construct_instance_nil data instance :
  construct_instance setattr [] data instance = Some instance.
Proof. done. Qed.

Lemma foldl_setattr_None data fields :
  foldl (λ acc field, inst ← acc; setattr field (data !! field) inst)
        None fields = None.
Proof. induction fields as [|f fields IH]; [done|]. simpl. apply IH. Qed.

Lemma construct_instance_cons data field fields instance :
  construct_instance setattr (field :: fields) data instance
  = inst ← setattr field (data !! field) instance;
    construct_instance setattr fields data inst.
Proof.
  unfold construct_instance. simpl.
  destruct (setattr field (data !! field) instance) as [inst|]; [done|].
  apply foldl_setattr_None.
Qed.

(** A bound form reads the posted data at its fields only. *)
Lemma construct_instance_ext (data1 data2 : gmap string FieldValue) fields
    instance :
  (∀ field, field ∈ fields → data1 !! field = data2 !! field) →
  construct_instance setattr fields data1 instance
  = construct_instance setattr fields data2 instance.
Proof.
  revert instance. induction fields as [|f fields IH]; intros instance Hag.
  - done.
  - rewrite !construct_instance_cons, (Hag f) by left.
    destruct (setattr f (data2 !! f) instance) as [inst|]; [|done].
    simpl. apply IH. intros field Hin. apply Hag. by right.
Qed.

(** What every field of the form preserves, the form preserves. *)
Lemma construct_instance_preserves {B : Type} (proj : A → B) data fields :
  (∀ field value inst inst', field ∈ fields →
     setattr field value inst = Some inst' → proj inst' = proj inst) →
  ∀ instance instance',
    construct_instance setattr fields data instance = Some instance' →
    proj instance' = proj instance.
Proof.
  induction fields as [|f fields IH]; intros Hfield instance instance'.
  - rewrite construct_instance_nil. by intros [= ->].
  - rewrite construct_instance_cons.
    destruct (setattr f (data !! f) instance) as [inst|] eqn:Hset; [|done].
    simpl. intros Hrest. transitivity (proj inst).
    + apply IH; [|done]. intros ? ? ? ? Hin. apply Hfield. by right.
    + eapply Hfield; [left|done].
Qed.

End forms.

Lemma PostForm_fields_eq :
  PostForm_fields
  = ["title"; "text"; "pub_date"; "location"; "category"; "is_published"].
Proof. reflexivity. Qed.

Lemma CommentForm_fields_eq : CommentForm_fields = ["text"].
Proof. reflexivity. Qed.

Lemma author_not_in_PostForm : "author" ∉ PostForm_fields.
Proof. rewrite PostForm_fields_eq. not_listed. Qed.

(** Posted data that differ in the author value only look the same to
    the post form. *)
Lemma PostForm_ignores_author (db : DB) (data1 data2 : gmap string FieldValue)
    (instance : Post.t) :
  delete "author" data1 = delete "author" data2 →
  construct_instance (Post_setattr db) PostForm_fields data1 instance
  = construct_instance (Post_setattr db) PostForm_fields data2 instance.
Proof.
  intros Hag. apply construct_instance_ext. intros field Hin.
  assert (field ≠ "author") as Hne
    by (intros ->; by apply author_not_in_PostForm).
  rewrite <- (lookup_delete_ne data1 "author" field) by done.
  rewrite <- (lookup_delete_ne data2 "author" field) by done.
  by rewrite Hag.
Qed.

(** The comment form assigns the text and nothing else. *)
Lemma CommentForm_frame (db : DB) (data : gmap string FieldValue)
    (c c' : Comment.t) :
  construct_instance (Comment_setattr db) CommentForm_fields data c = Some c' →
  Comment.author c' = Comment.author c
  ∧ Comment.post c' = Comment.post c
  ∧ Comment.created_at c' = Comment.created_at c.
Proof.
  intros Hc.
  apply (construct_instance_preserves (Comment_setattr db)
           (λ c, (Comment.author c, Comment.post c, Comment.created_at c)))
    in Hc; [by injection Hc as -> -> ->|].
  intros field value inst inst'. rewrite CommentForm_fields_eq.
  intros ->%list_elem_of_singleton. unfold Comment_setattr. simpl.
  destruct (clean_text value); [|done]. by intros [= <-].
Qed.

(** ** The detail view of a post *)

(** The lookup of [PostDetailView] in terms of the row with that key. *)
Lemma PostDetailView_get_object_eq (db : DB) (request : Request) (pk : Z) :
  PostDetailView_get_object db request pk
  = match posts db !! pk with
    | Some p =>
        if decide (Post.is_published p = true
                   ∨ author__username db p = Some (str_user (user request)))
        then Ok (pk, p) else Http404
    | None => Http404
    end.
Proof.
  unfold PostDetailView_get_object.
  set (visible := λ r : Z * Post.t, Post.is_published r.2 = true
         ∨ author__username db r.2 = Some (str_user (user request))).
  assert (∀ y p, y ∈ filter visible (objects (posts db)) → y.1 = pk →
                 posts db !! pk = Some p → y = (pk, p)) as Hsame.
  { intros [k q] p [_ Hy%elem_of_map_to_list]%list_elem_of_filter Hk Hp.
    simpl in Hk. subst k. congruence. }
  destruct (posts db !! pk) as [p|] eqn:Hp.
  - destruct (decide _) as [Hvis|Hhid].
    + rewrite (filter_only_one _ _ (pk, p)); try done.
      * apply NoDup_filter, NoDup_map_to_list.
      * apply list_elem_of_filter. split; [done|].
        by apply elem_of_map_to_list.
      * intros y Hy Hk. by apply Hsame.
    + rewrite filter_all_out; [done|]. intros y Hy Hk.
      pose proof (Hsame y p Hy Hk eq_refl) as ->.
      by apply list_elem_of_filter in Hy as [Hvis _].
  - rewrite filter_all_out; [done|].
    intros [k q] [_ Hy%elem_of_map_to_list]%list_elem_of_filter Hk.
    simpl in Hk. subst k. congruence.
Qed.

(** For a logged-in viewer the comparison of usernames is the comparison
    of users. *)
Lemma author__username_authenticated (db : DB) (p : Post.t) (vpk : Z)
    (vu : User.t) :
  unique_usernames db →
  users db !! vpk = Some vu →
  author__username db p = Some (User.username vu) ↔ Post.author p = vpk.
Proof.
  intros Huniq Hv. unfold author__username. split.
  - destruct (users db !! Post.author p) as [a|] eqn:Ha; [|done].
    simpl. intros [= Hname].
    assert ((Post.author p, a) = (vpk, vu)) as [= ? ?]; [|done].
    apply (unique_key_eq (λ r : Z * User.t, User.username r.2)
             (objects (users db))); try done;
      by apply elem_of_map_to_list.
  - intros ->. by rewrite Hv.
Qed.

(** Where no registered user is called "AnonymousUser", the detail view
    does what C2 says, for a key in the range of the key column: the post
    is returned iff it is published or the viewer is its author, and the
    lookup is not found otherwise or when no post has the key. *)
Lemma PostDetailView_get_object_spec (db : DB) (request : Request) (pk : Z) :
  key_in_range pk →
  unique_usernames db →
  viewer_in_db db (user request) →
  (∀ k u, users db !! k = Some u → User.username u ≠ "AnonymousUser") →
  PostDetailView_get_object db request pk
  = match posts db !! pk with
    | Some p =>
        if decide (Post.is_published p = true
                   ∨ author_ne_user (Post.author p) (user request) = false)
        then Ok (pk, p) else Http404
    | None => Http404
    end.
Proof.
  intros _ Huniq Hv Hnames. rewrite PostDetailView_get_object_eq.
  destruct (posts db !! pk) as [p|]; [|done].
  assert (author__username db p = Some (str_user (user request))
          ↔ author_ne_user (Post.author p) (user request) = false) as Hiff.
  { destruct (user request) as [|vpk vu]; simpl in *.
    - split; [|done]. unfold author__username.
      destruct (users db !! Post.author p) as [a|] eqn:Ha; [|done].
      intros [= Hname]. by apply Hnames in Ha.
    - rewrite author__username_authenticated by done.
      rewrite bool_decide_eq_false. split; [tauto|].
      intros Hnn. by destruct (decide (Post.author p = vpk)). }
  repeat destruct (decide _); try done; tauto.
Qed.

(** C2 on the sample database: post 5 is not published and its author is
    the registered user called "AnonymousUser"; the code compares the
    author's username with the text of [request.user], so the anonymous
    viewer, who is the author of nothing, gets the post instead of a 404.
    Post 2, unpublished too, is not found for the anonymous viewer. *)
Theorem PostDetailView_anonymous_viewer :
  posts blog_db !! 5 = Some P5
  ∧ Post.is_published P5 = false
  ∧ author_ne_user (Post.author P5) AnonymousUser = true
  ∧ PostDetailView_get_object blog_db (request_of AnonymousUser GET []) 5
    = Ok (5, P5)
  ∧ PostDetailView_get_object blog_db (request_of AnonymousUser GET []) 2
    = Http404.
Proof. repeat split. Qed.

(** ** Editing and deleting a post *)

Lemma author_ne_user_false (author_pk : Z) (v : Viewer) :
  author_ne_user author_pk v = false ↔ ∃ u, v = Authenticated author_pk u.
Proof.
  destruct v as [|pk u]; simpl.
  - split; [done|]. by intros [? ?].
  - rewrite bool_decide_eq_false. split.
    + intros Hnn. exists u. f_equal.
      by destruct (decide (author_pk = pk)).
    + intros [? [= <- _]]. tauto.
Qed.

(** C3, as the code has it: a logged-in viewer who is not the author of
    the post is redirected to the detail view of the post by an edit or a
    delete request, whatever its method and data, and an anonymous viewer
    to the login page; in both cases the database is left as it was. *)
Theorem Post_edit_delete_by_non_author (db : DB) (request : Request) (pk : Z)
    (p : Post.t) (a : User.t) :
  posts db !! pk = Some p →
  users db !! Post.author p = Some a →
  author_ne_user (Post.author p) (user request) = true →
  let response :=
    if is_authenticated (user request)
    then HttpResponseRedirect (blog_post_detail pk)
    else HttpResponseRedirect LOGIN_URL in
  PostUpdateView db request pk = (response, db)
  ∧ PostDeleteView db request pk = (response, db).
Proof.
  intros Hp Ha Hne. unfold PostUpdateView, PostDeleteView.
  unfold LoginRequiredMixin_dispatch, DispatchMixin_dispatch.
  destruct (is_authenticated (user request)); simpl; [|done].
  rewrite !Post_get_object_eq, Hp. simpl.
  unfold author_id, Post_Authored. by rewrite Ha, Hne.
Qed.

Lemma Post_edit_delete_by_non_author_witness :
  let request := request_of (Authenticated 2 bob) POST [("title", VText "x")] in
  PostUpdateView blog_db request 1
    = (HttpResponseRedirect (blog_post_detail 1), blog_db)
  ∧ PostDeleteView blog_db request 1
    = (HttpResponseRedirect (blog_post_detail 1), blog_db).
Proof.
  apply (Post_edit_delete_by_non_author blog_db
           (request_of (Authenticated 2 bob) POST [("title", VText "x")])
           1 P1 alice); reflexivity.
Defined.

(** C3 fails as stated: the anonymous viewer is not the author of post 1
    of the sample database, and the edit and the delete request redirect
    to the login page, not to the detail view of the post. *)
Lemma Post_edit_delete_by_non_author_counterexample :
  let request := request_of AnonymousUser POST [("title", VText "x")] in
  posts blog_db !! 1 = Some P1
  ∧ author_ne_user (Post.author P1) (user request) = true
  ∧ (PostUpdateView blog_db request 1).1
    ≠ HttpResponseRedirect (blog_post_detail 1)
  ∧ (PostDeleteView blog_db request 1).1
    ≠ HttpResponseRedirect (blog_post_detail 1)
  ∧ PostUpdateView blog_db request 1
    = (HttpResponseRedirect LOGIN_URL, blog_db).
Proof. repeat split; vm_compute; discriminate. Qed.

(** The author's edit goes through: every field of the form is assigned,
    the author stays. *)
Example PostUpdateView_by_author :
  let request :=
    request_of (Authenticated 1 alice) POST
      [("title", VText "P1 again"); ("text", VText "new text");
       ("pub_date", VTime 51); ("category", VRef 2);
       ("is_published", VBool true); ("author", VRef 2)] in
  (PostUpdateView blog_db request 1).1
    = HttpResponseRedirect (Post_get_absolute_url 1)
  ∧ posts (PostUpdateView blog_db request 1).2 !! 1
    = Some {| Post.title := "P1 again"; Post.text := "new text";
              Post.pub_date := 51; Post.author := 1; Post.location := None;
              Post.category := Some 2; Post.is_published := true;
              Post.created_at := 3 |}.
Proof. split; reflexivity. Qed.

(** C9: whatever an edit request on a post does, and so for every
    successful edit, the post is still there afterwards with the author it
    had before. *)
Theorem PostUpdateView_keeps_author (db : DB) (request : Request) (pk : Z)
    (p : Post.t) :
  posts db !! pk = Some p →
  ∃ p', posts (PostUpdateView db request pk).2 !! pk = Some p'
        ∧ Post.author p' = Post.author p.
Proof.
  intros Hp. unfold PostUpdateView, LoginRequiredMixin_dispatch.
  destruct (is_authenticated (user request)); [|by exists p].
  unfold DispatchMixin_dispatch. rewrite Post_get_object_eq, Hp. simpl.
  destruct (users db !! author_id p); [|by exists p].
  destruct (author_ne_user (author_id p) (user request)) eqn:Hne;
    [by exists p|].
  apply author_ne_user_false in Hne as [u Hu].
  destruct (method request); [by exists p|].
  unfold PostUpdateView_post. rewrite Post_get_object_eq, Hp. simpl.
  destruct (construct_instance _ _ _ p) as [instance|]; [|by exists p].
  unfold PostUpdateView_form_valid. rewrite Hu. simpl.
  eexists. by rewrite lookup_insert_eq.
Qed.

Lemma PostUpdateView_keeps_author_witness :
  ∃ p', posts (PostUpdateView blog_db
                 (request_of (Authenticated 1 alice) POST
                    [("title", VText "P1 again"); ("text", VText "new text");
                     ("pub_date", VTime 51); ("author", VRef 2)]) 1).2 !! 1
        = Some p'
        ∧ Post.author p' = Post.author P1.
Proof.
  apply (PostUpdateView_keeps_author blog_db _ 1 P1). reflexivity.
Defined.

(** ** Creating a post *)

Lemma le_foldr_max (k : Z) (l : list Z) : k ∈ l → k ≤ foldr Z.max 0 l.
Proof.
  induction l as [|a l IH]; [by intros ?%elem_of_nil|].
  intros [->|Hin]%elem_of_cons; simpl; [lia|].
  specialize (IH Hin). lia.
Qed.

(** The key of an insertion is not in use. *)
Lemma next_pk_fresh {A : Type} (table : gmap Z A) :
  table !! next_pk table = None.
Proof.
  destruct (table !! next_pk table) as [x|] eqn:Hx; [|done].
  apply elem_of_map_to_list in Hx.
  assert (next_pk table ≤ foldr Z.max 0 (objects table).*1) as Hle.
  { apply le_foldr_max, list_elem_of_fmap. by exists (next_pk table, x). }
  unfold next_pk in Hle at 1. lia.
Qed.

(** C5: a create request of a logged-in requester whose form is valid
    inserts one post under an unused key, with the fields the form
    cleaned, the current time as creation time and the requester as
    author, and redirects to the profile of the requester; any other
    create request (an invalid form, or the method GET) shows the form and
    stores nothing; and two requests of the same requester whose posted data
    differ at most in the value given for the author have the same response
    and leave the same database. *)
Theorem PostCreateView_author_is_requester (db : DB) (now : Z) (upk : Z)
    (u : User.t) (m : Method) (data data' : gmap string FieldValue) :
  let request (d : gmap string FieldValue) :=
    {| user := Authenticated upk u; method := m; POST_data := d |} in
  delete "author" data' = delete "author" data →
  match m, construct_instance (Post_setattr db) PostForm_fields data
             new_Post with
  | POST, Some instance =>
      ∃ p, PostCreateView db now (request data)
           = (HttpResponseRedirect (blog_profile (User.username u)),
              save_post (next_pk (posts db)) p db)
           ∧ posts db !! next_pk (posts db) = None
           ∧ posts (PostCreateView db now (request data)).2
               !! next_pk (posts db) = Some p
           ∧ Post.author p = upk
           ∧ p = Post_with_created_at now (Post_with_author upk instance)
  | _, _ => PostCreateView db now (request data) = (TemplateResponse, db)
  end
  ∧ PostCreateView db now (request data')
    = PostCreateView db now (request data).
Proof.
  intros request Hag. split.
  - unfold PostCreateView, LoginRequiredMixin_dispatch. simpl.
    destruct m; [done|]. unfold PostCreateView_post. simpl.
    destruct (construct_instance _ _ _ _) as [instance|]; [|done].
    eexists. split; [done|]. split; [apply next_pk_fresh|].
    simpl. by rewrite lookup_insert_eq.
  - unfold PostCreateView, PostCreateView_post. simpl.
    by rewrite (PostForm_ignores_author db data' data).
Qed.

Lemma PostCreateView_author_is_requester_witness :
  let request (author : Z) :=
    request_of (Authenticated 2 bob) POST
      [("title", VText "hello"); ("text", VText "world");
       ("pub_date", VTime 90); ("author", VRef author)] in
  (∃ p, PostCreateView blog_db today (request 1)
        = (HttpResponseRedirect (blog_profile "bob"),
           save_post (next_pk (posts blog_db)) p blog_db)
        ∧ posts blog_db !! next_pk (posts blog_db) = None
        ∧ posts (PostCreateView blog_db today (request 1)).2
            !! next_pk (posts blog_db) = Some p
        ∧ Post.author p = 2
        ∧ p = Post_with_created_at today
                (Post_with_author 2
                   {| Post.title := "hello"; Post.text := "world";
                      Post.pub_date := 90; Post.author := 0;
                      Post.location := None; Post.category := None;
                      Post.is_published := false; Post.created_at := 0 |}))
  ∧ PostCreateView blog_db today (request 3)
    = PostCreateView blog_db today (request 1).
Proof.
  pose proof (PostCreateView_author_is_requester blog_db today 2 bob POST
                (list_to_map [("title", VText "hello"); ("text", VText "world");
                              ("pub_date", VTime 90); ("author", VRef 1)])
                (list_to_map [("title", VText "hello"); ("text", VText "world");
                              ("pub_date", VTime 90); ("author", VRef 3)]))
    as Hcreate.
  vm_compute in Hcreate. vm_compute. apply Hcreate. reflexivity.
Defined.

(** The form is valid when the title and the text have a character that
    is not white space and no null character, the date is a time, and
    nothing is posted for the location, the category and the publication
    flag. *)
Lemma PostForm_required_fields (db : DB) (data : gmap string FieldValue)
    (title text : string) (pub_date : Z) (p : Post.t) :
  data !! "title" = Some (VText title) →
  has_null title = false →
  strip title ≠ "" →
  data !! "text" = Some (VText text) →
  has_null text = false →
  strip text ≠ "" →
  data !! "pub_date" = Some (VTime pub_date) →
  data !! "location" = None →
  data !! "category" = None →
  data !! "is_published" = None →
  construct_instance (Post_setattr db) PostForm_fields data p
  = Some {| Post.title := strip title; Post.text := strip text;
            Post.pub_date := pub_date; Post.author := Post.author p;
            Post.location := None; Post.category := None;
            Post.is_published := false;
            Post.created_at := Post.created_at p |}.
Proof.
  intros Htitle Hn1 Hs1 Htext Hn2 Hs2 Hdate Hloc Hcat Hpub.
  assert (∀ q, Post_setattr db "title" (Some (VText title)) q
               = Some (Post_with_title (strip title) q)) as Hset1.
  { intros q. unfold Post_setattr, clean_text. rewrite Hn1.
    by repeat (case_decide; try done). }
  assert (∀ q, Post_setattr db "text" (Some (VText text)) q
               = Some (Post_with_text (strip text) q)) as Hset2.
  { intros q. unfold Post_setattr, clean_text. rewrite Hn2.
    by repeat (case_decide; try done). }
  rewrite PostForm_fields_eq.
  rewrite construct_instance_cons, Htitle, Hset1. simpl.
  rewrite construct_instance_cons, Htext, Hset2. simpl.
  rewrite construct_instance_cons, Hdate. simpl.
  rewrite construct_instance_cons, Hloc. simpl.
  rewrite construct_instance_cons, Hcat. simpl.
  by rewrite construct_instance_cons, Hpub.
Qed.

(** A valid submission does create the post, with the requester as its
    author whatever author the posted data name. *)
Example PostCreateView_sample :
  let request (author : Z) :=
    request_of (Authenticated 2 bob) POST
      [("title", VText "hello"); ("text", VText "world");
       ("pub_date", VTime 90); ("category", VRef 1);
       ("is_published", VBool true); ("author", VRef author)] in
  next_pk (posts blog_db) = 8
  ∧ posts (PostCreateView blog_db today (request 1)).2 !! 8
    = Some {| Post.title := "hello"; Post.text := "world";
              Post.pub_date := 90; Post.author := 2; Post.location := None;
              Post.category := Some 1; Post.is_published := true;
              Post.created_at := today |}
  ∧ PostCreateView blog_db today (request 1)
    = PostCreateView blog_db today (request 3).
Proof. repeat split. Qed.

(** A submission that leaves out a required field stores nothing. *)
Example PostCreateView_invalid :
  PostCreateView blog_db today
    (request_of (Authenticated 2 bob) POST [("title", VText "hello")])
  = (TemplateResponse, blog_db).
Proof. reflexivity. Qed.

(** ** Editing and deleting a comment *)

(** The lookup by the pair of keys: the comment with that key, when it
    is a comment of that post. *)
Lemma CommentMixin_get_object_eq (db : DB) (post_pk comment_pk : Z) :
  CommentMixin_get_object db post_pk comment_pk
  = match comments db !! comment_pk with
    | Some c =>
        if decide (Comment.post c = post_pk) then Ok (comment_pk, c)
        else Http404
    | None => Http404
    end.
Proof.
  unfold CommentMixin_get_object, objects.
  destruct (comments db !! comment_pk) as [c|] eqn:Hc.
  - destruct (decide _) as [Hpost|Hpost].
    + rewrite (filter_only_one _ _ (comment_pk, c)); try done.
      * apply NoDup_map_to_list.
      * by apply elem_of_map_to_list.
      * intros [k c'] Hin%elem_of_map_to_list [Hk _]. simpl in *.
        subst k. congruence.
    + rewrite filter_all_out; [done|].
      intros [k c'] Hin%elem_of_map_to_list [Hk Hp]. simpl in *.
      subst k. congruence.
  - rewrite filter_all_out; [done|].
    intros [k c'] Hin%elem_of_map_to_list [Hk _]. simpl in *.
    subst k. congruence.
Qed.

(** A comment that is not a comment of the stated post, a key in the
    range of the key column, is not found, and nothing is changed. *)
Lemma Comment_edit_delete_wrong_post (db : DB) (request : Request)
    (post_pk comment_pk : Z) (c : Comment.t) :
  key_in_range post_pk →
  comments db !! comment_pk = Some c →
  Comment.post c ≠ post_pk →
  CommentUpdateView db request post_pk comment_pk = (HttpResponseNotFound, db)
  ∧ CommentDeleteView db request post_pk comment_pk
    = (HttpResponseNotFound, db).
Proof.
  intros _ Hc Hpost. unfold CommentUpdateView, CommentDeleteView.
  unfold DispatchMixin_dispatch. rewrite !CommentMixin_get_object_eq, Hc.
  by destruct (decide _).
Qed.

(** A requester who is not the author of the comment changes nothing; the
    redirect is to the post detail route at the key of the comment. *)
Lemma Comment_edit_delete_by_non_author (db : DB) (request : Request)
    (post_pk comment_pk : Z) (c : Comment.t) (a : User.t) :
  comments db !! comment_pk = Some c →
  Comment.post c = post_pk →
  users db !! Comment.author c = Some a →
  author_ne_user (Comment.author c) (user request) = true →
  CommentUpdateView db request post_pk comment_pk
    = (HttpResponseRedirect (blog_post_detail comment_pk), db)
  ∧ CommentDeleteView db request post_pk comment_pk
    = (HttpResponseRedirect (blog_post_detail comment_pk), db).
Proof.
  intros Hc Hpost Ha Hne. unfold CommentUpdateView, CommentDeleteView.
  unfold DispatchMixin_dispatch. rewrite !CommentMixin_get_object_eq, Hc.
  destruct (decide _); [|done]. simpl.
  unfold author_id, Comment_Authored. by rewrite Ha, Hne.
Qed.

(** C8 on the sample database: comment 2 is a comment of post 1 written by
    user 1; the edit and the delete request of user 2 for the pair (1, 2)
    change nothing, and redirect to the detail view of post 2, the post
    whose key is the key of the comment, not to the detail view of post 1,
    the post of the comment. *)
Theorem Comment_edit_delete_redirect_target :
  let request := request_of (Authenticated 2 bob) POST [("text", VText "x")] in
  comments blog_db !! 2 = Some K2
  ∧ Comment.post K2 = 1
  ∧ Comment.author K2 = 1
  ∧ CommentUpdateView blog_db request 1 2
    = (HttpResponseRedirect (blog_post_detail 2), blog_db)
  ∧ CommentDeleteView blog_db request 1 2
    = (HttpResponseRedirect (blog_post_detail 2), blog_db)
  ∧ blog_post_detail 2 ≠ blog_post_detail (Comment.post K2).
Proof. repeat split. discriminate. Qed.

(** The author's edit and the author's delete go through, and lead to the
    detail view of the post named in the address. *)
Example Comment_edit_delete_by_author :
  let request := request_of (Authenticated 1 alice) POST [("text", VText "x")] in
  (CommentUpdateView blog_db request 1 2).1
    = HttpResponseRedirect (blog_post_detail 1)
  ∧ comments (CommentUpdateView blog_db request 1 2).2 !! 2
    = Some {| Comment.text := "x"; Comment.author := 1; Comment.post := 1;
              Comment.created_at := 56 |}
  ∧ (CommentDeleteView blog_db request 1 2).1
    = HttpResponseRedirect (blog_post_detail 1)
  ∧ comments (CommentDeleteView blog_db request 1 2).2 !! 2 = None.
Proof. repeat split. Qed.

(** C10: whatever an edit request on a comment does, and so for every
    successful edit, the comment is still there afterwards with the author,
    the post and the creation time it had before, whatever the posted data;
    the other comments and the other tables are as they were. *)
Theorem CommentUpdateView_frame (db : DB) (request : Request)
    (post_pk comment_pk : Z) (c : Comment.t) :
  comments db !! comment_pk = Some c →
  let db' := (CommentUpdateView db request post_pk comment_pk).2 in
  (∃ c', comments db' !! comment_pk = Some c'
         ∧ Comment.author c' = Comment.author c
         ∧ Comment.post c' = Comment.post c
         ∧ Comment.created_at c' = Comment.created_at c)
  ∧ (∀ k, k ≠ comment_pk → comments db' !! k = comments db !! k)
  ∧ users db' = users db
  ∧ posts db' = posts db
  ∧ categories db' = categories db
  ∧ locations db' = locations db.
Proof.
  intros Hc.
  assert (∃ c', comments db !! comment_pk = Some c'
                ∧ Comment.author c' = Comment.author c
                ∧ Comment.post c' = Comment.post c
                ∧ Comment.created_at c' = Comment.created_at c) as Hsame
    by by exists c.
  unfold CommentUpdateView, DispatchMixin_dispatch.
  rewrite CommentMixin_get_object_eq, Hc.
  destruct (decide _); [|done]. simpl.
  destruct (users db !! author_id c); [|done].
  destruct (author_ne_user _ _); [done|].
  unfold LoginRequiredMixin_dispatch.
  destruct (is_authenticated _); [|done]. simpl.
  destruct (method request); [done|].
  destruct (construct_instance _ _ _ c) as [c'|] eqn:Hform; [|done].
  apply CommentForm_frame in Hform. simpl. split; [|split; [|done]].
  - exists c'. by rewrite lookup_insert_eq.
  - intros k Hk. by rewrite lookup_insert_ne.
Qed.

Lemma CommentUpdateView_frame_witness :
  let db' := (CommentUpdateView blog_db
                (request_of (Authenticated 1 alice) POST
                   [("text", VText "x"); ("author", VRef 2);
                    ("post", VRef 3); ("created_at", VTime 99)]) 1 2).2 in
  (∃ c', comments db' !! 2 = Some c'
         ∧ Comment.author c' = Comment.author K2
         ∧ Comment.post c' = Comment.post K2
         ∧ Comment.created_at c' = Comment.created_at K2)
  ∧ (∀ k, k ≠ 2 → comments db' !! k = comments blog_db !! k)
  ∧ users db' = users blog_db
  ∧ posts db' = posts blog_db
  ∧ categories db' = categories blog_db
  ∧ locations db' = locations blog_db.
Proof.
  apply (CommentUpdateView_frame blog_db _ 1 2 K2). reflexivity.
Defined.

(** ** Updating a profile *)

(** The update of a profile reads of the requester only that there is
    one. *)
Lemma ProfileUpdateView_any_requester (db : DB) (v1 v2 : Viewer) (m : Method)
    (data : gmap string FieldValue) (username : string) :
  is_authenticated v1 = true →
  is_authenticated v2 = true →
  ProfileUpdateView db {| user := v1; method := m; POST_data := data |} username
  = ProfileUpdateView db {| user := v2; method := m; POST_data := data |}
      username.
Proof.
  intros H1 H2. unfold ProfileUpdateView, LoginRequiredMixin_dispatch. simpl.
  by rewrite H1, H2.
Qed.

(** C4 on the sample database: user 2, logged in, posts to the profile
    address of user 1; the identity fields of user 1 are overwritten, and
    those of user 2 are as they were. *)
Theorem ProfileUpdateView_cross_user :
  let request :=
    request_of (Authenticated 2 bob) POST
      [("username", VText "alice"); ("first_name", VText "Mallory");
       ("last_name", VText "M"); ("email", VText "mallory@example.org")] in
  users blog_db !! 1 = Some alice
  ∧ (ProfileUpdateView blog_db request "alice").1
    = HttpResponseRedirect (blog_profile "alice")
  ∧ users (ProfileUpdateView blog_db request "alice").2 !! 1
    = Some {| User.username := "alice"; User.first_name := "Mallory";
              User.last_name := "M"; User.email := "mallory@example.org" |}
  ∧ users (ProfileUpdateView blog_db request "alice").2 !! 2 = Some bob.
Proof. repeat split. Qed.

(** * Further properties of the views *)

(** ** Listings, continued *)

Lemma elem_of_ordered_annotated (db : DB) (qs : list (Z * Post.t))
    (r : Z * Post.t * nat) :
  r ∈ order_by_pub_date_desc (annotate_comment_count db qs)
  ↔ r.1 ∈ qs ∧ r.2 = Count_comments db r.1.1.
Proof.
  unfold order_by_pub_date_desc, annotate_comment_count.
  rewrite merge_sort_Permutation, list_elem_of_fmap. split.
  - by intros (x & -> & Hx).
  - destruct r as [x n]. simpl. intros [Hx ->]. by exists x.
Qed.




(** X2: a slug that no published category has is not found: the category
    page of an unknown slug and of an unpublished category alike. *)
Theorem CategoryListView_unknown_slug (db : DB) (now : Z)
    (category_slug : string) (page : PageParam) :
  (∀ k c, categories db !! k = Some c → Category.slug c = category_slug →
          Category.is_published c = false) →
  CategoryListView_get_queryset db now category_slug = Http404
  ∧ CategoryListView db now category_slug page = Http404.
Proof.
  intros Hnone.
  assert (CategoryListView_get_queryset db now category_slug = Http404) as Hqs.
  { unfold CategoryListView_get_queryset. rewrite filter_all_out; [done|].
    intros [k c] Hin%elem_of_map_to_list [Hslug Hpub]. simpl in *.
    rewrite (Hnone k c Hin Hslug) in Hpub. done. }
  split; [done|]. unfold CategoryListView. by rewrite Hqs.
Qed.

Lemma CategoryListView_unknown_slug_witness :
  CategoryListView_get_queryset blog_db today "sports" = Http404
  ∧ CategoryListView blog_db today "sports" (PageNumber 1) = Http404.
Proof.
  apply (CategoryListView_unknown_slug blog_db today "sports" (PageNumber 1)).
  apply (bool_decide_unpack _). vm_compute. exact I.
Defined.

(** X3: a category page lists nothing the home page does not list: every
    row of a category listing is a row of the home listing, with the same
    comment count. *)
Theorem CategoryListView_within_home (db : DB) (now : Z)
    (category_slug : string) (qs : list (Z * Post.t * nat))
    (r : Z * Post.t * nat) :
  CategoryListView_get_queryset db now category_slug = Ok qs →
  r ∈ qs →
  r ∈ PostListView_get_queryset db now.
Proof.
  unfold CategoryListView_get_queryset, PostListView_get_queryset.
  destruct (get_object_or_404 _) as [category| |]; simpl; [|done..].
  intros [= <-]. rewrite !elem_of_ordered_annotated, !list_elem_of_filter.
  tauto.
Qed.

Lemma CategoryListView_within_home_witness :
  (1, P1, 2%nat) ∈ PostListView_get_queryset blog_db today.
Proof.
  apply (CategoryListView_within_home blog_db today "news"
           [(1, P1, 2%nat)] (1, P1, 2%nat)).
  - reflexivity.
  - left.
Defined.

(** X4: and the home page lists nothing the category pages hide: a post of
    the home listing is in the listing of the slug of its category. *)
Theorem PostListView_within_category (db : DB) (now : Z) (cid : Z)
    (c : Category.t) (r : Z * Post.t * nat) :
  unique_slugs db →
  r ∈ PostListView_get_queryset db now →
  Post.category r.1.2 = Some cid →
  categories db !! cid = Some c →
  ∃ qs, CategoryListView_get_queryset db now (Category.slug c) = Ok qs
        ∧ r ∈ qs.
Proof.
  intros Huniq Hr Hcat Hc. unfold PostListView_get_queryset in Hr.
  apply elem_of_ordered_annotated in Hr as [Hr Hn].
  apply list_elem_of_filter in Hr as [(Hlt & Hpub & Hcpub) Hin].
  assert (Category.is_published c = true) as Hcp.
  { unfold category__is_published in Hcpub. by rewrite Hcat, Hc in Hcpub. }
  unfold CategoryListView_get_queryset.
  rewrite (filter_only_one _ _ (cid, c)).
  - simpl. eexists. split; [done|].
    apply elem_of_ordered_annotated. split; [|done].
    apply list_elem_of_filter. done.
  - apply NoDup_map_to_list.
  - by apply elem_of_map_to_list.
  - done.
  - intros y Hy [Hslug _].
    apply (unique_key_eq (λ r : Z * Category.t, Category.slug r.2)
             (objects (categories db))); try done.
    by apply elem_of_map_to_list.
Qed.

Lemma PostListView_within_category_witness :
  ∃ qs, CategoryListView_get_queryset blog_db today (Category.slug news)
          = Ok qs
        ∧ (1, P1, 2%nat) ∈ qs.
Proof.
  apply (PostListView_within_category blog_db today 1 news (1, P1, 2%nat)).
  - apply (bool_decide_unpack _). vm_compute. exact I.
  - vm_compute. left.
  - reflexivity.
  - reflexivity.
Defined.

(** ** The detail view, continued *)



(** X6: the author of a post, logged in, gets its detail page whether the
    post is published or not. *)
Theorem PostDetailView_author_access (db : DB) (m : Method)
    (data : gmap string FieldValue) (vpk : Z) (vu : User.t) (pk : Z)
    (p : Post.t) :
  posts db !! pk = Some p →
  users db !! vpk = Some vu →
  Post.author p = vpk →
  PostDetailView_get_object db
    {| user := Authenticated vpk vu; method := m; POST_data := data |} pk
  = Ok (pk, p).
Proof.
  intros Hp Hv Ha. rewrite PostDetailView_get_object_eq, Hp. simpl.
  destruct (decide _) as [_|Hhid]; [done|]. destruct Hhid. right.
  unfold author__username. by rewrite Ha, Hv.
Qed.

Lemma PostDetailView_author_access_witness :
  PostDetailView_get_object blog_db
    {| user := Authenticated 1 alice; method := GET; POST_data := ∅ |} 2
  = Ok (2, P2).
Proof.
  apply (PostDetailView_author_access blog_db GET ∅ 1 alice 2 P2);
    reflexivity.
Defined.





(** ** Pages *)

Lemma num_pages_spec (count n : nat) :
  (1 ≤ n ≤ num_pages count ↔ n = 1 ∨ (1 < n ∧ (n - 1) * 10 < count))%nat.
Proof.
  unfold num_pages, paginate_by.
  pose proof (Nat.div_mod_eq (Nat.max 1 count + 10 - 1) 10) as Hdiv.
  pose proof (Nat.mod_upper_bound (Nat.max 1 count + 10 - 1) 10) as Hmod.
  lia.
Qed.

Lemma paginate_queryset_number {A : Type} (qs : list A) (n : Z) :
  paginate_queryset qs (PageNumber n)
  = if decide (n < 1) then Http404
    else if decide (Z.of_nat (num_pages (length qs)) < n) then Http404
    else Ok (take (Nat.min ((Z.to_nat n - 1) * 10 + 10) (length qs)
                   - (Z.to_nat n - 1) * 10)
                  (drop ((Z.to_nat n - 1) * 10) qs)).
Proof. reflexivity. Qed.

(** X9: a page is a run of at most ten rows of the listing, in the order
    of the listing, and it is empty only when the listing is. *)
Theorem paginate_queryset_page {A : Type} (qs pg : list A) (page : PageParam) :
  paginate_queryset qs page = Ok pg →
  (length pg ≤ 10)%nat ∧ pg `sublist_of` qs ∧ (qs ≠ [] → pg ≠ []).
Proof.
  unfold paginate_queryset.
  destruct (match page with
            | PageAbsent => Ok 1
            | PageNumber n => Ok n
            | PageLast => Ok (Z.of_nat (num_pages (length qs)))
            | PageInvalid => Http404
            end) as [number| |]; simpl; [|done..].
  destruct (decide (number < 1)) as [|Hlo]; [done|].
  destruct (decide (_ < number)) as [|Hhi]; [done|].
  intros [= <-]. unfold paginate_by in *.
  assert (1 ≤ Z.to_nat number ≤ num_pages (length qs))%nat as Hn by lia.
  apply num_pages_spec in Hn. split; [|split].
  - rewrite length_take. lia.
  - etransitivity; [apply sublist_take|apply sublist_drop].
  - intros Hqs Hpg. apply (f_equal length) in Hpg.
    rewrite length_take, length_drop in Hpg. simpl in Hpg.
    assert (length qs ≠ 0%nat) by by destruct qs.
    lia.
Qed.

Lemma paginate_queryset_page_witness :
  (length [(1, P1, 2%nat)] ≤ 10)%nat
  ∧ [(1, P1, 2%nat)] `sublist_of` PostListView_get_queryset blog_db today
  ∧ (PostListView_get_queryset blog_db today ≠ [] → [(1, P1, 2%nat)] ≠ []).
Proof.
  apply (paginate_queryset_page (PostListView_get_queryset blog_db today)
           [(1, P1, 2%nat)] PageLast).
  reflexivity.
Defined.

(** X10: no row of a listing is lost in the paging: the row at index [i]
    is on page [i / 10 + 1], at index [i mod 10]. *)
Theorem paginate_queryset_covers {A : Type} (qs : list A) (i : nat) (x : A) :
  qs !! i = Some x →
  ∃ pg, paginate_queryset qs (PageNumber (Z.of_nat (i / 10) + 1)) = Ok pg
        ∧ pg !! (i mod 10)%nat = Some x.
Proof.
  intros Hi. pose proof (lookup_lt_Some _ _ _ Hi) as Hlt.
  pose proof (Nat.div_mod_eq i 10) as Hdiv.
  pose proof (Nat.mod_upper_bound i 10) as Hmod.
  rewrite paginate_queryset_number.
  assert (1 ≤ i / 10 + 1 ≤ num_pages (length qs))%nat as Hn
    by (apply num_pages_spec; lia).
  destruct (decide (_ < 1)) as [|_]; [lia|].
  destruct (decide (_ < _)) as [|_]; [lia|].
  eexists. split; [done|].
  replace (Z.to_nat (Z.of_nat (i / 10) + 1) - 1)%nat with (i / 10)%nat by lia.
  rewrite lookup_take_lt by lia. rewrite lookup_drop.
  by replace (i / 10 * 10 + i mod 10)%nat with i by lia.
Qed.

Lemma paginate_queryset_covers_witness :
  ∃ pg, paginate_queryset (seq 0 25) (PageNumber (Z.of_nat (23 / 10) + 1))
        = Ok pg
        ∧ pg !! (23 mod 10)%nat = Some 23%nat.
Proof.
  apply (paginate_queryset_covers (seq 0 25) 23 23%nat). reflexivity.
Defined.

(** X11: the first page always exists, be the listing empty; a later page
    exists exactly when the listing has a row for it; every other number
    is not found, and so is a parameter that is neither a number nor the
    word [last]; without the parameter, and with [last], the page
    exists. *)
Theorem paginate_queryset_found {A : Type} (qs : list A) (n : Z) :
  ((∃ pg, paginate_queryset qs (PageNumber n) = Ok pg)
   ↔ n = 1 ∨ (1 < n ∧ 10 * (n - 1) < Z.of_nat (length qs)))
  ∧ (paginate_queryset qs (PageNumber n) = Http404
     ↔ ¬ (n = 1 ∨ (1 < n ∧ 10 * (n - 1) < Z.of_nat (length qs))))
  ∧ paginate_queryset qs PageInvalid = Http404
  ∧ (∃ pg, paginate_queryset qs PageAbsent = Ok pg)
  ∧ (∃ pg, paginate_queryset qs PageLast = Ok pg).
Proof.
  pose proof (num_pages_spec (length qs) (Z.to_nat n)) as Hn.
  pose proof (num_pages_spec (length qs) 1) as H1.
  pose proof (num_pages_spec (length qs) (num_pages (length qs))) as Hlast.
  repeat split.
  - rewrite paginate_queryset_number.
    repeat destruct (decide _); [by intros [? ?]..|lia].
  - rewrite paginate_queryset_number.
    repeat destruct (decide _); [lia..|]. intros _. by eexists.
  - rewrite paginate_queryset_number.
    repeat destruct (decide _); [lia..|done].
  - rewrite paginate_queryset_number.
    repeat destruct (decide _); [done..|lia].
  - change (paginate_queryset qs PageAbsent)
      with (paginate_queryset qs (PageNumber 1)).
    rewrite paginate_queryset_number.
    repeat destruct (decide _); [lia..|by eexists].
  - change (paginate_queryset qs PageLast)
      with (paginate_queryset qs
              (PageNumber (Z.of_nat (num_pages (length qs))))).
    rewrite paginate_queryset_number.
    repeat destruct (decide _); [lia..|by eexists].
Qed.

(** ** Requests that change nothing *)

(** X12: a request of the anonymous user changes nothing, whichever view
    it goes to; the views that start with the login check answer it with
    the redirect to the login page. *)
Theorem anonymous_request_changes_nothing (db : DB) (now : Z)
    (request : Request) (pk post_pk comment_pk : Z) (username : string) :
  user request = AnonymousUser →
  PostCreateView db now request = (HttpResponseRedirect LOGIN_URL, db)
  ∧ PostUpdateView db request pk = (HttpResponseRedirect LOGIN_URL, db)
  ∧ PostDeleteView db request pk = (HttpResponseRedirect LOGIN_URL, db)
  ∧ CommentCreateView db now request pk = (HttpResponseRedirect LOGIN_URL, db)
  ∧ ProfileUpdateView db request username
    = (HttpResponseRedirect LOGIN_URL, db)
  ∧ (CommentUpdateView db request post_pk comment_pk).2 = db
  ∧ (CommentDeleteView db request post_pk comment_pk).2 = db.
Proof.
  intros Hanon.
  unfold PostCreateView, PostUpdateView, PostDeleteView, CommentCreateView,
    ProfileUpdateView, CommentUpdateView, CommentDeleteView,
    LoginRequiredMixin_dispatch, DispatchMixin_dispatch.
  rewrite Hanon. simpl. repeat split; try done.
  - destruct (CommentMixin_get_object _ _ _) as [obj| |]; simpl; [|done..].
    by destruct (users db !! author_id obj.2).
  - destruct (CommentMixin_get_object _ _ _) as [obj| |]; simpl; [|done..].
    by destruct (users db !! author_id obj.2).
Qed.

Lemma anonymous_request_changes_nothing_witness :
  let request := request_of AnonymousUser POST [("text", VText "x")] in
  PostCreateView blog_db today request
    = (HttpResponseRedirect LOGIN_URL, blog_db)
  ∧ PostUpdateView blog_db request 1 = (HttpResponseRedirect LOGIN_URL, blog_db)
  ∧ PostDeleteView blog_db request 1 = (HttpResponseRedirect LOGIN_URL, blog_db)
  ∧ CommentCreateView blog_db today request 1
    = (HttpResponseRedirect LOGIN_URL, blog_db)
  ∧ ProfileUpdateView blog_db request "alice"
    = (HttpResponseRedirect LOGIN_URL, blog_db)
  ∧ (CommentUpdateView blog_db request 1 2).2 = blog_db
  ∧ (CommentDeleteView blog_db request 1 2).2 = blog_db.
Proof.
  apply (anonymous_request_changes_nothing blog_db today
           (request_of AnonymousUser POST [("text", VText "x")]) 1 1 2 "alice").
  reflexivity.
Defined.

(** X13: an edit or delete request of a logged-in user for a key no post
    has, in the range of the key column, is not found, and changes
    nothing. *)
Theorem Post_edit_delete_missing_post (db : DB) (request : Request) (pk : Z) :
  key_in_range pk →
  is_authenticated (user request) = true →
  posts db !! pk = None →
  PostUpdateView db request pk = (HttpResponseNotFound, db)
  ∧ PostDeleteView db request pk = (HttpResponseNotFound, db).
Proof.
  intros _ Hauth Hp.
  unfold PostUpdateView, PostDeleteView, LoginRequiredMixin_dispatch,
    DispatchMixin_dispatch.
  by rewrite Hauth, !Post_get_object_eq, Hp.
Qed.

Lemma Post_edit_delete_missing_post_witness :
  let request := request_of (Authenticated 1 alice) POST [] in
  PostUpdateView blog_db request 42 = (HttpResponseNotFound, blog_db)
  ∧ PostDeleteView blog_db request 42 = (HttpResponseNotFound, blog_db).
Proof.
  apply (Post_edit_delete_missing_post blog_db
           (request_of (Authenticated 1 alice) POST []) 42);
    [vm_compute; done|reflexivity..].
Defined.

(** ** Editing, deleting and creating a post, continued *)

(** The post form assigns neither the creation time nor the author. *)
Lemma PostForm_frame (db : DB) (data : gmap string FieldValue)
    (p p' : Post.t) :
  construct_instance (Post_setattr db) PostForm_fields data p = Some p' →
  Post.created_at p' = Post.created_at p ∧ Post.author p' = Post.author p.
Proof.
  intros Hp.
  apply (construct_instance_preserves (Post_setattr db)
           (λ p, (Post.created_at p, Post.author p))) in Hp;
    [by injection Hp as -> ->|].
  intros field value inst inst' Hin. rewrite PostForm_fields_eq in Hin.
  unfold Post_setattr.
  repeat (apply elem_of_cons in Hin as [->|Hin];
          [repeat case_decide; try done; intros Hset; simplify_option_eq;
           try done; repeat case_match; by simplify_eq|]).
  by apply elem_of_nil in Hin.
Qed.

(** X14: whatever an edit request does, the post keeps its creation time,
    every other post is as it was, and so are the other tables. *)
Theorem PostUpdateView_frame (db : DB) (request : Request) (pk k : Z)
    (p : Post.t) :
  posts db !! pk = Some p →
  k ≠ pk →
  let db' := (PostUpdateView db request pk).2 in
  (∃ p', posts db' !! pk = Some p'
         ∧ Post.created_at p' = Post.created_at p)
  ∧ posts db' !! k = posts db !! k
  ∧ users db' = users db
  ∧ comments db' = comments db
  ∧ categories db' = categories db
  ∧ locations db' = locations db.
Proof.
  intros Hp Hk.
  assert (∃ p', posts db !! pk = Some p'
                ∧ Post.created_at p' = Post.created_at p) as Hsame
    by by exists p.
  unfold PostUpdateView, LoginRequiredMixin_dispatch.
  destruct (is_authenticated (user request)); [|done].
  unfold DispatchMixin_dispatch. rewrite Post_get_object_eq, Hp. simpl.
  destruct (users db !! author_id p); [|done].
  destruct (author_ne_user (author_id p) (user request)); [done|].
  destruct (method request); [done|].
  unfold PostUpdateView_post. rewrite Post_get_object_eq, Hp. simpl.
  destruct (construct_instance _ _ _ p) as [instance|] eqn:Hform; [|done].
  apply PostForm_frame in Hform as [Hcreated _].
  unfold PostUpdateView_form_valid.
  destruct (user request) as [|upk u]; [done|]. simpl.
  split; [|by rewrite lookup_insert_ne].
  eexists. by rewrite lookup_insert_eq.
Qed.

Lemma PostUpdateView_frame_witness :
  let db' := (PostUpdateView blog_db
                (request_of (Authenticated 1 alice) POST
                   [("title", VText "P1 again"); ("text", VText "new text");
                    ("pub_date", VTime 51); ("created_at", VTime 99)]) 1).2 in
  (∃ p', posts db' !! 1 = Some p'
         ∧ Post.created_at p' = Post.created_at P1)
  ∧ posts db' !! 2 = posts blog_db !! 2
  ∧ users db' = users blog_db
  ∧ comments db' = comments blog_db
  ∧ categories db' = categories blog_db
  ∧ locations db' = locations blog_db.
Proof.
  apply (PostUpdateView_frame blog_db _ 1 2 P1); [reflexivity|discriminate].
Defined.



(** X16: a create request never touches a stored post, nor any other
    table. *)
Theorem PostCreateView_keeps_posts (db : DB) (now : Z) (request : Request)
    (k : Z) (p : Post.t) :
  posts db !! k = Some p →
  let db' := (PostCreateView db now request).2 in
  posts db' !! k = Some p
  ∧ users db' = users db
  ∧ comments db' = comments db
  ∧ categories db' = categories db
  ∧ locations db' = locations db.
Proof.
  intros Hk. unfold PostCreateView, LoginRequiredMixin_dispatch.
  destruct (is_authenticated _); [|done].
  destruct (method request); [done|]. unfold PostCreateView_post.
  destruct (construct_instance _ _ _ _) as [instance|]; [|done].
  unfold PostCreateView_form_valid.
  destruct (user request) as [|upk u]; [done|]. simpl.
  split; [|done]. rewrite lookup_insert_ne; [done|].
  intros Heq. pose proof (next_pk_fresh (posts db)) as Hfresh.
  rewrite Heq in Hfresh. congruence.
Qed.

Lemma PostCreateView_keeps_posts_witness :
  let db' := (PostCreateView blog_db today
                (request_of (Authenticated 2 bob) POST
                   [("title", VText "hello"); ("text", VText "world");
                    ("pub_date", VTime 90)])).2 in
  posts db' !! 1 = Some P1
  ∧ users db' = users blog_db
  ∧ comments db' = comments blog_db
  ∧ categories db' = categories blog_db
  ∧ locations db' = locations blog_db.
Proof.
  apply (PostCreateView_keeps_posts blog_db today _ 1 P1). reflexivity.
Defined.

(** The lookup of the profile listing, usernames being unique. *)
Lemma ProfileView_get_queryset_eq (db : DB) (request : Request) (upk : Z)
    (u : User.t) :
  unique_usernames db →
  users db !! upk = Some u →
  ProfileView_get_queryset db request (User.username u)
  = Ok (order_by_pub_date_desc
          (annotate_comment_count db
             (filter (λ r : Z * Post.t, Post.author r.2 = upk)
                     (objects (posts db))))).
Proof.
  intros Huniq Hu. unfold ProfileView_get_queryset.
  by rewrite (filter_unique_key (λ r : Z * User.t, User.username r.2)
                _ (upk, u)); [|done|by apply elem_of_map_to_list].
Qed.

(** X17: a create request that succeeds redirects to a profile page that
    is found and lists the new post, under a key that was not in use. *)
Theorem PostCreateView_then_profile (db db' : DB) (now : Z)
    (request request' : Request) (name : string) :
  unique_usernames db →
  viewer_in_db db (user request) →
  PostCreateView db now request
    = (HttpResponseRedirect (blog_profile name), db') →
  ∃ qs p, ProfileView_get_queryset db' request' name = Ok qs
          ∧ (next_pk (posts db), p) ∈ listed qs
          ∧ posts db !! next_pk (posts db) = None.
Proof.
  intros Huniq Hv. unfold PostCreateView, LoginRequiredMixin_dispatch.
  destruct (is_authenticated _); [|done].
  destruct (method request); [done|]. unfold PostCreateView_post.
  destruct (construct_instance _ _ _ _) as [instance|]; [|done].
  unfold PostCreateView_form_valid.
  destruct (user request) as [|upk u]; [done|]. simpl in Hv.
  intros [= <- <-].
  rewrite (ProfileView_get_queryset_eq _ request' upk u) by done.
  eexists _, (Post_with_created_at now (Post_with_author upk instance)).
  split; [done|]. split; [|apply next_pk_fresh].
  apply elem_of_listed_ordered, list_elem_of_filter. split; [done|].
  apply elem_of_map_to_list. simpl. apply lookup_insert_eq.
Qed.

Lemma PostCreateView_then_profile_witness :
  ∃ qs p, ProfileView_get_queryset
            (PostCreateView blog_db today
               (request_of (Authenticated 2 bob) POST
                  [("title", VText "hello"); ("text", VText "world");
                   ("pub_date", VTime 90)])).2
            (request_of AnonymousUser GET []) "bob" = Ok qs
          ∧ (next_pk (posts blog_db), p) ∈ listed qs
          ∧ posts blog_db !! next_pk (posts blog_db) = None.
Proof.
  apply (PostCreateView_then_profile blog_db _ today
           (request_of (Authenticated 2 bob) POST
              [("title", VText "hello"); ("text", VText "world");
               ("pub_date", VTime 90)])).
  - apply (bool_decide_unpack _). vm_compute. exact I.
  - reflexivity.
  - reflexivity.
Defined.

(** ** Comments, continued *)

(** Counting over a table that gains or loses a row. *)
Lemma Count_comments_save (db : DB) (k : Z) (c : Comment.t) (post_pk : Z) :
  comments db !! k = None →
  Count_comments (save_comment k c db) post_pk
  = if decide (Comment.post c = post_pk) then S (Count_comments db post_pk)
    else Count_comments db post_pk.
Proof.
  intros Hk. unfold Count_comments, objects. simpl.
  rewrite (map_to_list_insert _ _ _ Hk), filter_cons. simpl.
  by destruct (decide _).
Qed.

Lemma Count_comments_delete (db : DB) (k : Z) (c : Comment.t) (post_pk : Z) :
  comments db !! k = Some c →
  Count_comments db post_pk
  = if decide (Comment.post c = post_pk)
    then S (Count_comments (delete_comment k db) post_pk)
    else Count_comments (delete_comment k db) post_pk.
Proof.
  intros Hk. unfold Count_comments, objects. simpl.
  rewrite <- (map_to_list_delete _ _ _ Hk), filter_cons. simpl.
  by destruct (decide _).
Qed.

Lemma CommentForm_text (db : DB) (data : gmap string FieldValue)
    (c : Comment.t) (s : string) :
  data !! "text" = Some (VText s) →
  has_null s = false →
  strip s ≠ "" →
  construct_instance (Comment_setattr db) CommentForm_fields data c
  = Some {| Comment.text := strip s; Comment.author := Comment.author c;
            Comment.post := Comment.post c;
            Comment.created_at := Comment.created_at c |}.
Proof.
  intros Hdata Hnull Hs.
  rewrite CommentForm_fields_eq, construct_instance_cons.
  rewrite Hdata. unfold Comment_setattr, clean_text. rewrite Hnull.
  repeat case_decide; done.
Qed.

(** A text of white space only, and no text at all, is no comment. *)
Lemma CommentForm_blank (db : DB) (data : gmap string FieldValue)
    (c : Comment.t) :
  (data !! "text" = None
   ∨ ∃ s, data !! "text" = Some (VText s) ∧ strip s = "") →
  construct_instance (Comment_setattr db) CommentForm_fields data c = None.
Proof.
  intros Hblank.
  rewrite CommentForm_fields_eq, construct_instance_cons.
  unfold Comment_setattr, clean_text.
  destruct Hblank as [->|(s & -> & Hs)]; [by repeat case_decide|].
  rewrite Hs. by destruct (has_null s); repeat case_decide.
Qed.

(** X18: a logged-in user who posts a text to a stored post, published or
    not, adds one comment under an unused key: its text is the posted
    text without the white space around it, its author the requester, its
    post the post of the address, its creation time the current time; the
    answer is the redirect to the post.  When no post has the key, a key in
    the range of the column, the answer is not found and nothing is stored.
    The text must have a character that is not white space, and no null
    character. *)
Theorem CommentCreateView_valid (db : DB) (now : Z) (upk : Z) (u : User.t)
    (data : gmap string FieldValue) (pk : Z) (s : string) :
  data !! "text" = Some (VText s) →
  has_null s = false →
  strip s ≠ "" →
  key_in_range pk →
  let request :=
    {| user := Authenticated upk u; method := POST; POST_data := data |} in
  match posts db !! pk with
  | Some _ =>
      CommentCreateView db now request pk
      = (HttpResponseRedirect (blog_post_detail pk),
         save_comment (next_pk (comments db))
           {| Comment.text := strip s; Comment.author := upk;
              Comment.post := pk; Comment.created_at := now |} db)
      ∧ comments db !! next_pk (comments db) = None
  | None => CommentCreateView db now request pk = (HttpResponseNotFound, db)
  end.
Proof.
  intros Hdata Hnull Hs _ request.
  unfold CommentCreateView, LoginRequiredMixin_dispatch. simpl.
  rewrite (CommentForm_text db data new_Comment s) by done.
  unfold CommentCreateView_form_valid. simpl. rewrite Post_get_object_eq.
  destruct (posts db !! pk); [|done]. split; [done|apply next_pk_fresh].
Qed.

Lemma CommentCreateView_valid_witness :
  CommentCreateView blog_db today
    {| user := Authenticated 2 bob; method := POST;
       POST_data := {[ "text" := VText "  third " ]} |} 2
  = (HttpResponseRedirect (blog_post_detail 2),
     save_comment (next_pk (comments blog_db))
       {| Comment.text := strip "  third "; Comment.author := 2;
          Comment.post := 2; Comment.created_at := today |} blog_db)
  ∧ comments blog_db !! next_pk (comments blog_db) = None.
Proof.
  apply (CommentCreateView_valid blog_db today 2 bob
           {[ "text" := VText "  third " ]} 2 "  third ");
    [reflexivity|reflexivity|vm_compute; discriminate|vm_compute; done].
Defined.

(** The text is stored stripped, and a text of white space stores
    nothing. *)
Example CommentCreateView_strip :
  strip "  third " = "third"
  ∧ CommentCreateView blog_db today
      {| user := Authenticated 2 bob; method := POST;
         POST_data := {[ "text" := VText "   " ]} |} 2
    = (TemplateResponse, blog_db).
Proof. split; reflexivity. Qed.

(** X19: the comment form reads the posted text and nothing else: two
    create requests, or two edit requests, that agree on the text have the
    same answer and leave the same database, whatever author, post or
    creation time the data name. *)
Theorem Comment_views_read_text_only (db : DB) (now : Z) (v : Viewer)
    (m : Method) (data data' : gmap string FieldValue)
    (post_pk comment_pk : Z) :
  data !! "text" = data' !! "text" →
  let request (d : gmap string FieldValue) :=
    {| user := v; method := m; POST_data := d |} in
  CommentCreateView db now (request data) post_pk
    = CommentCreateView db now (request data') post_pk
  ∧ CommentUpdateView db (request data) post_pk comment_pk
    = CommentUpdateView db (request data') post_pk comment_pk.
Proof.
  intros Htext request.
  assert (∀ c, construct_instance (Comment_setattr db) CommentForm_fields data c
               = construct_instance (Comment_setattr db) CommentForm_fields
                   data' c) as Hform.
  { intros c. apply construct_instance_ext. rewrite CommentForm_fields_eq.
    by intros field ->%list_elem_of_singleton. }
  unfold CommentCreateView, CommentUpdateView. simpl. split.
  - by rewrite Hform.
  - unfold DispatchMixin_dispatch, LoginRequiredMixin_dispatch. simpl.
    destruct (CommentMixin_get_object _ _ _) as [obj| |]; simpl; [|done..].
    destruct (users db !! author_id obj.2); [|done].
    destruct (author_ne_user _ v); [done|].
    destruct (is_authenticated v); [|done].
    destruct m; [done|]. by rewrite Hform.
Qed.

Lemma Comment_views_read_text_only_witness :
  let request (d : gmap string FieldValue) :=
    {| user := Authenticated 1 alice; method := POST; POST_data := d |} in
  CommentCreateView blog_db today (request {[ "text" := VText "x" ]}) 1
    = CommentCreateView blog_db today
        (request (<[ "author" := VRef 2 ]> {[ "text" := VText "x" ]})) 1
  ∧ CommentUpdateView blog_db (request {[ "text" := VText "x" ]}) 1 2
    = CommentUpdateView blog_db
        (request (<[ "author" := VRef 2 ]> {[ "text" := VText "x" ]})) 1 2.
Proof.
  apply (Comment_views_read_text_only blog_db today (Authenticated 1 alice)
           POST {[ "text" := VText "x" ]}
           (<[ "author" := VRef 2 ]> {[ "text" := VText "x" ]}) 1 2).
  reflexivity.
Defined.

(** X20: after a comment is added (a text with a character that is not
    white space and no null character, posted by a logged-in user to a
    stored post), the post has one comment more and every other post as
    many as before. *)
Theorem CommentCreateView_count (db : DB) (now : Z) (upk : Z) (u : User.t)
    (data : gmap string FieldValue) (pk k : Z) (p : Post.t) (s : string) :
  posts db !! pk = Some p →
  data !! "text" = Some (VText s) →
  has_null s = false →
  strip s ≠ "" →
  k ≠ pk →
  let db' :=
    (CommentCreateView db now
       {| user := Authenticated upk u; method := POST; POST_data := data |}
       pk).2 in
  Count_comments db' pk = S (Count_comments db pk)
  ∧ Count_comments db' k = Count_comments db k.
Proof.
  intros Hp Hdata Hnull Hs Hk.
  unfold CommentCreateView, LoginRequiredMixin_dispatch. simpl.
  rewrite (CommentForm_text db data new_Comment s) by done.
  unfold CommentCreateView_form_valid. simpl.
  rewrite Post_get_object_eq, Hp. simpl.
  rewrite !Count_comments_save by apply next_pk_fresh. simpl.
  by repeat case_decide.
Qed.

Lemma CommentCreateView_count_witness :
  let db' :=
    (CommentCreateView blog_db today
       {| user := Authenticated 2 bob; method := POST;
          POST_data := {[ "text" := VText "third" ]} |} 2).2 in
  Count_comments db' 2 = S (Count_comments blog_db 2)
  ∧ Count_comments db' 1 = Count_comments blog_db 1.
Proof.
  apply (CommentCreateView_count blog_db today 2 bob
           {[ "text" := VText "third" ]} 2 1 P2 "third");
    [reflexivity..|vm_compute; discriminate|discriminate].
Defined.

(** X21: the author of a comment who posts a text (with a character that
    is not white space, and no null character) to the edit address of the
    comment replaces the text of the comment by the posted text without
    the white space around it, and nothing else, and is sent to the post
    named in the address. *)
Theorem CommentUpdateView_by_author (db : DB) (upk : Z) (u a : User.t)
    (data : gmap string FieldValue) (post_pk comment_pk : Z)
    (c : Comment.t) (s : string) :
  comments db !! comment_pk = Some c →
  Comment.post c = post_pk →
  Comment.author c = upk →
  users db !! upk = Some a →
  data !! "text" = Some (VText s) →
  has_null s = false →
  strip s ≠ "" →
  CommentUpdateView db
    {| user := Authenticated upk u; method := POST; POST_data := data |}
    post_pk comment_pk
  = (HttpResponseRedirect (blog_post_detail post_pk),
     save_comment comment_pk
       {| Comment.text := strip s; Comment.author := Comment.author c;
          Comment.post := Comment.post c;
          Comment.created_at := Comment.created_at c |} db).
Proof.
  intros Hc Hpost Hauthor Ha Hdata Hnull Hs.
  unfold CommentUpdateView, DispatchMixin_dispatch,
    LoginRequiredMixin_dispatch.
  rewrite CommentMixin_get_object_eq, Hc.
  destruct (decide _); [|done]. simpl.
  unfold author_id, Comment_Authored. subst upk. rewrite Ha.
  rewrite bool_decide_eq_false_2 by tauto.
  by rewrite (CommentForm_text db data c s).
Qed.

Lemma CommentUpdateView_by_author_witness :
  CommentUpdateView blog_db
    {| user := Authenticated 1 alice; method := POST;
       POST_data := {[ "text" := VText " edited " ]} |} 1 2
  = (HttpResponseRedirect (blog_post_detail 1),
     save_comment 2
       {| Comment.text := strip " edited ";
          Comment.author := Comment.author K2;
          Comment.post := Comment.post K2;
          Comment.created_at := Comment.created_at K2 |} blog_db).
Proof.
  apply (CommentUpdateView_by_author blog_db 1 alice alice
           {[ "text" := VText " edited " ]} 1 2 K2 " edited ");
    [reflexivity..|vm_compute; discriminate].
Defined.

(** The edit stores the stripped text, and a text of white space changes
    nothing. *)
Example CommentUpdateView_strip :
  strip " edited " = "edited"
  ∧ CommentUpdateView blog_db
      {| user := Authenticated 1 alice; method := POST;
         POST_data := {[ "text" := VText "   " ]} |} 1 2
    = (TemplateResponse, blog_db).
Proof. split; reflexivity. Qed.

(** X22: the author of a comment who posts to the delete address of the
    comment removes that comment and no other, is sent to the post named in
    the address, and the post has one comment less. *)
Theorem CommentDeleteView_by_author (db : DB) (upk : Z) (u a : User.t)
    (data : gmap string FieldValue) (post_pk comment_pk k : Z)
    (c : Comment.t) :
  comments db !! comment_pk = Some c →
  Comment.post c = post_pk →
  Comment.author c = upk →
  users db !! upk = Some a →
  k ≠ comment_pk →
  ∃ db', CommentDeleteView db
           {| user := Authenticated upk u; method := POST; POST_data := data |}
           post_pk comment_pk
         = (HttpResponseRedirect (blog_post_detail post_pk), db')
         ∧ comments db' !! comment_pk = None
         ∧ comments db' !! k = comments db !! k
         ∧ posts db' = posts db
         ∧ Count_comments db post_pk = S (Count_comments db' post_pk).
Proof.
  intros Hc Hpost Hauthor Ha Hk.
  unfold CommentDeleteView, DispatchMixin_dispatch,
    LoginRequiredMixin_dispatch.
  rewrite CommentMixin_get_object_eq, Hc.
  destruct (decide _); [|done]. simpl.
  unfold author_id, Comment_Authored. rewrite Hauthor, Ha.
  rewrite bool_decide_eq_false_2 by tauto.
  eexists. split; [done|]. simpl.
  split; [apply lookup_delete_eq|]. split; [by apply lookup_delete_ne|].
  split; [done|].
  rewrite (Count_comments_delete db comment_pk c post_pk Hc).
  by destruct (decide _).
Qed.

Lemma CommentDeleteView_by_author_witness :
  ∃ db', CommentDeleteView blog_db
           {| user := Authenticated 1 alice; method := POST; POST_data := ∅ |}
           1 2
         = (HttpResponseRedirect (blog_post_detail 1), db')
         ∧ comments db' !! 2 = None
         ∧ comments db' !! 1 = comments blog_db !! 1
         ∧ posts db' = posts blog_db
         ∧ Count_comments blog_db 1 = S (Count_comments db' 1).
Proof.
  apply (CommentDeleteView_by_author blog_db 1 alice alice ∅ 1 2 1 K2);
    [reflexivity..|discriminate].
Defined.

(** X23: an edit or delete request for a pair of keys, both in the range
    of the key columns, that is not a stored comment together with its
    post (no comment has the key, or the comment is a comment of another
    post) is not found and changes nothing, whoever sends it. *)
Theorem Comment_edit_delete_not_found (db : DB) (request : Request)
    (post_pk comment_pk : Z) :
  key_in_range post_pk →
  key_in_range comment_pk →
  (∀ c, comments db !! comment_pk = Some c → Comment.post c ≠ post_pk) →
  CommentUpdateView db request post_pk comment_pk = (HttpResponseNotFound, db)
  ∧ CommentDeleteView db request post_pk comment_pk
    = (HttpResponseNotFound, db).
Proof.
  intros _ _ Hnone. unfold CommentUpdateView, CommentDeleteView.
  unfold DispatchMixin_dispatch. rewrite !CommentMixin_get_object_eq.
  destruct (comments db !! comment_pk) as [c|]; [|done].
  destruct (decide _) as [Hpost|]; [|done]. by destruct (Hnone c).
Qed.

Lemma Comment_edit_delete_not_found_witness :
  let request := request_of (Authenticated 1 alice) POST [("text", VText "x")] in
  CommentUpdateView blog_db request 3 2 = (HttpResponseNotFound, blog_db)
  ∧ CommentDeleteView blog_db request 3 2 = (HttpResponseNotFound, blog_db).
Proof.
  apply (Comment_edit_delete_not_found blog_db
           (request_of (Authenticated 1 alice) POST [("text", VText "x")]) 3 2).
  - vm_compute. done.
  - vm_compute. done.
  - intros c [= <-]. discriminate.
Defined.

(** X24: an edit or delete request of anyone but the author of the
    comment changes nothing, whatever its method and data. *)
Theorem Comment_edit_delete_author_only (db : DB) (request : Request)
    (post_pk comment_pk : Z) (c : Comment.t) :
  comments db !! comment_pk = Some c →
  author_ne_user (Comment.author c) (user request) = true →
  (CommentUpdateView db request post_pk comment_pk).2 = db
  ∧ (CommentDeleteView db request post_pk comment_pk).2 = db.
Proof.
  intros Hc Hne. unfold CommentUpdateView, CommentDeleteView.
  unfold DispatchMixin_dispatch. rewrite !CommentMixin_get_object_eq, Hc.
  destruct (decide _); [|done]. simpl.
  unfold author_id, Comment_Authored. rewrite Hne.
  by destruct (users db !! Comment.author c).
Qed.

Lemma Comment_edit_delete_author_only_witness :
  let request := request_of (Authenticated 2 bob) POST [("text", VText "x")] in
  (CommentUpdateView blog_db request 1 2).2 = blog_db
  ∧ (CommentDeleteView blog_db request 1 2).2 = blog_db.
Proof.
  apply (Comment_edit_delete_author_only blog_db
           (request_of (Authenticated 2 bob) POST [("text", VText "x")])
           1 2 K2); reflexivity.
Defined.

(** ** The profile, continued *)

Lemma get_object_or_404_Ok {A : Type} (queryset : list A) (obj : A) :
  get_object_or_404 queryset = Ok obj ↔ queryset = [obj].
Proof.
  destruct queryset as [|x [|y l]]; simpl; split; try done.
  - by intros [= ->].
  - by intros [= ->].
Qed.

(** Unique usernames, row by row. *)
Lemma unique_usernames_iff (db : DB) :
  unique_usernames db ↔
  ∀ k1 k2 u1 u2, users db !! k1 = Some u1 → users db !! k2 = Some u2 →
                 User.username u1 = User.username u2 → k1 = k2.
Proof.
  unfold unique_usernames, objects. split.
  - intros Hnd k1 k2 u1 u2 H1 H2 Hname.
    assert ((k1, u1) = (k2, u2)) as [= ? ?]; [|done].
    apply (unique_key_eq (λ r : Z * User.t, User.username r.2)
             (map_to_list (users db))); try done;
      by apply elem_of_map_to_list.
  - intros Hinj. apply NoDup_fmap_2_strong; [|apply NoDup_map_to_list].
    intros [k1 u1] [k2 u2] H1%elem_of_map_to_list H2%elem_of_map_to_list Hname.
    simpl in Hname. pose proof (Hinj k1 k2 u1 u2 H1 H2 Hname) as ->.
    congruence.
Qed.

(** What a profile update can do: nothing, or overwrite the row that was
    looked up with an instance whose username no other row has. *)
Lemma ProfileUpdateView_cases (db : DB) (request : Request)
    (username : string) :
  (ProfileUpdateView db request username).2 = db
  ∧ (∀ name, (ProfileUpdateView db request username).1
             ≠ HttpResponseRedirect (blog_profile name))
  ∨ ∃ pk u instance,
      filter (λ r : Z * User.t, User.username r.2 = username)
             (objects (users db)) = [(pk, u)]
      ∧ users db !! pk = Some u
      ∧ (∀ k u', users db !! k = Some u' →
                 User.username u' = User.username instance → k = pk)
      ∧ ProfileUpdateView db request username
        = (HttpResponseRedirect (blog_profile (User.username instance)),
           save_user pk instance db).
Proof.
  unfold ProfileUpdateView, LoginRequiredMixin_dispatch,
    ProfileUpdateView_get_object.
  destruct (is_authenticated _); [|by left].
  destruct (get_object_or_404 _) as [[pk u]| |] eqn:Hobj; simpl;
    [|by left..].
  apply get_object_or_404_Ok in Hobj.
  destruct (method request); [by left|].
  destruct (construct_instance _ _ _ _) as [instance|]; [|by left].
  destruct (validate_unique db pk instance) eqn:Hvalid; [|by left].
  right. exists pk, u, instance. split; [done|]. split; [|split; [|done]].
  - apply elem_of_map_to_list.
    assert ((pk, u) ∈ filter (λ r : Z * User.t, User.username r.2 = username)
                         (objects (users db))) as Hin
      by (rewrite Hobj; left).
    by apply list_elem_of_filter in Hin as [_ Hin].
  - intros k u' Hk Hname. unfold validate_unique in Hvalid.
    apply bool_decide_eq_true in Hvalid.
    destruct (decide (k = pk)) as [|Hne]; [done|].
    destruct (filter_nil_not_elem_of _ _ (k, u') Hvalid); [done|].
    by apply elem_of_map_to_list.
Qed.

(** X25: a profile update keeps the usernames unique, whoever sends it
    and whatever it posts. *)
Theorem ProfileUpdateView_keeps_usernames_unique (db : DB) (request : Request)
    (username : string) :
  unique_usernames db →
  unique_usernames (ProfileUpdateView db request username).2.
Proof.
  intros Huniq.
  destruct (ProfileUpdateView_cases db request username)
    as [[-> _]|(pk & u & instance & _ & Hu & Hfree & ->)]; [done|].
  apply (proj2 (unique_usernames_iff _)).
  pose proof (proj1 (unique_usernames_iff db) Huniq) as Hinj.
  simpl. intros k1 k2 u1 u2.
  rewrite !lookup_insert.
  destruct (decide (pk = k1)) as [<-|H1], (decide (pk = k2)) as [<-|H2];
    try done.
  - intros [= <-] Hk2 Hname. symmetry. by apply (Hfree k2 u2).
  - intros Hk1 [= <-] Hname. by apply (Hfree k1 u1).
  - apply Hinj.
Qed.

Lemma ProfileUpdateView_keeps_usernames_unique_witness :
  unique_usernames
    (ProfileUpdateView blog_db
       (request_of (Authenticated 2 bob) POST [("username", VText "robert")])
       "bob").2.
Proof.
  apply (ProfileUpdateView_keeps_usernames_unique blog_db).
  apply (bool_decide_unpack _). vm_compute. exact I.
Defined.

(** X26: a profile update touches no row but that of the user named in
    the address, which stays a row, and no other table. *)
Theorem ProfileUpdateView_frame (db : DB) (request : Request) (tpk k : Z)
    (t : User.t) :
  unique_usernames db →
  users db !! tpk = Some t →
  k ≠ tpk →
  let db' := (ProfileUpdateView db request (User.username t)).2 in
  users db' !! k = users db !! k
  ∧ is_Some (users db' !! tpk)
  ∧ posts db' = posts db
  ∧ comments db' = comments db
  ∧ categories db' = categories db
  ∧ locations db' = locations db.
Proof.
  intros Huniq Ht Hk.
  destruct (ProfileUpdateView_cases db request (User.username t))
    as [[Hsame _]|(pk & u & instance & Hobj & Hu & _ & Heq)]; cbv zeta.
  { rewrite Hsame, Ht. by eauto. }
  rewrite Heq. simpl.
  assert ((pk, u) ∈ filter (λ r : Z * User.t,
                              User.username r.2 = User.username t)
                       (objects (users db))) as Hin
    by (rewrite Hobj; left).
  apply list_elem_of_filter in Hin as [Hname _]. simpl in Hname.
  pose proof (proj1 (unique_usernames_iff db) Huniq) as Hinj.
  pose proof (Hinj pk tpk u t Hu Ht Hname) as ->.
  rewrite lookup_insert_eq, lookup_insert_ne by done. by eauto.
Qed.

Lemma ProfileUpdateView_frame_witness :
  let db' := (ProfileUpdateView blog_db
                (request_of (Authenticated 2 bob) POST
                   [("username", VText "robert")]) (User.username bob)).2 in
  users db' !! 1 = users blog_db !! 1
  ∧ is_Some (users db' !! 2)
  ∧ posts db' = posts blog_db
  ∧ comments db' = comments blog_db
  ∧ categories db' = categories blog_db
  ∧ locations db' = locations blog_db.
Proof.
  apply (ProfileUpdateView_frame blog_db _ 2 1 bob).
  - apply (bool_decide_unpack _). vm_compute. exact I.
  - reflexivity.
  - discriminate.
Defined.

(** X27: the posts follow the user to the new username: after a profile
    update that succeeds, the profile listing of the username it redirects
    to is the listing the old username had, and, the usernames having been
    unique, the old username, if it differs, is not found any more. *)
Theorem ProfileUpdateView_then_profile (db db' : DB)
    (request request' : Request) (old new : string) :
  unique_usernames db →
  ProfileUpdateView db request old
    = (HttpResponseRedirect (blog_profile new), db') →
  ProfileView_get_queryset db' request' new
    = ProfileView_get_queryset db request' old
  ∧ (∃ qs, ProfileView_get_queryset db request' old = Ok qs)
  ∧ (new ≠ old → ProfileView_get_queryset db' request' old = Http404).
Proof.
  intros Huniq Hview.
  destruct (ProfileUpdateView_cases db request old)
    as [[_ Hno]|(pk & u & instance & Hobj & Hu & Hfree & Heq)].
  { destruct (Hno new). by rewrite Hview. }
  rewrite Heq in Hview. injection Hview as <- <-.
  assert (User.username u = old) as Hold.
  { assert ((pk, u) ∈ filter (λ r : Z * User.t, User.username r.2 = old)
                         (objects (users db))) as Hin
      by (rewrite Hobj; left).
    by apply list_elem_of_filter in Hin as [Hname _]. }
  pose proof (proj1 (unique_usernames_iff db) Huniq) as Hinj.
  unfold ProfileView_get_queryset. rewrite Hobj. simpl.
  split; [|split; [by eexists|]].
  - rewrite (filter_only_one _ _ (pk, instance)); [done|..].
    + apply NoDup_map_to_list.
    + apply elem_of_map_to_list, lookup_insert_eq.
    + done.
    + intros [k u'] Hin%elem_of_map_to_list Hname. simpl in *.
      rewrite lookup_insert in Hin.
      destruct (decide (pk = k)) as [<-|Hne]; [congruence|].
      by destruct Hne; rewrite (Hfree k u').
  - intros Hnew. rewrite filter_all_out; [done|].
    intros [k u'] Hin%elem_of_map_to_list Hname. simpl in *.
    rewrite lookup_insert in Hin.
    destruct (decide (pk = k)) as [<-|Hne]; [congruence|].
    destruct Hne. apply (Hinj pk k u u'); congruence.
Qed.

Lemma ProfileUpdateView_then_profile_witness :
  let db' := (ProfileUpdateView blog_db
                (request_of (Authenticated 2 bob) POST
                   [("username", VText "robert")]) "bob").2 in
  ProfileView_get_queryset db' (request_of AnonymousUser GET []) "robert"
    = ProfileView_get_queryset blog_db (request_of AnonymousUser GET []) "bob"
  ∧ (∃ qs, ProfileView_get_queryset blog_db (request_of AnonymousUser GET [])
             "bob" = Ok qs)
  ∧ ("robert" ≠ "bob" →
     ProfileView_get_queryset db' (request_of AnonymousUser GET []) "bob"
     = Http404).
Proof.
  apply (ProfileUpdateView_then_profile blog_db _
           (request_of (Authenticated 2 bob) POST
              [("username", VText "robert")])
           (request_of AnonymousUser GET []) "bob" "robert").
  - apply (bool_decide_unpack _). vm_compute. exact I.
  - reflexivity.
Defined.

(** X28: a profile update for a username no user has is not found, and
    changes nothing. *)
Theorem ProfileUpdateView_unknown_username (db : DB) (request : Request)
    (username : string) :
  is_authenticated (user request) = true →
  (∀ k u, users db !! k = Some u → User.username u ≠ username) →
  ProfileUpdateView db request username = (HttpResponseNotFound, db).
Proof.
  intros Hauth Hnone.
  unfold ProfileUpdateView, LoginRequiredMixin_dispatch,
    ProfileUpdateView_get_object.
  rewrite Hauth, filter_all_out; [done|].
  intros [k u] Hin%elem_of_map_to_list Hname. by apply (Hnone k u).
Qed.

Lemma ProfileUpdateView_unknown_username_witness :
  ProfileUpdateView blog_db
    (request_of (Authenticated 2 bob) POST [("username", VText "robert")])
    "dave"
  = (HttpResponseNotFound, blog_db).
Proof.
  apply (ProfileUpdateView_unknown_username blog_db
           (request_of (Authenticated 2 bob) POST
              [("username", VText "robert")]) "dave").
  - reflexivity.
  - apply (bool_decide_unpack _). vm_compute. exact I.
Defined.
